(** * StuntGuard: WHO height-for-age z-score and stunting classification

    A shallow embedding of the computational core of [app.py]:
    - [get_height_for_age_reference] (lines 57-105): the WHO reference table
      with nearest-anchor selection and linear interpolation;
    - [calculate_height_for_age_z] (lines 107-114);
    - [predict_stunting] (lines 128-163): BMI, z-score, WHO classification and
      the call of the trained model;
    - the batch loop of [main] (lines 333-387);
    - [create_z_score_chart] (lines 165-190) and, of [main], the bounds of
      the form (lines 205-220), the displays of a result (lines 246-283) and
      the batch section with its summary (lines 327-387).

    Conventions of the embedding.
    - Python [int] is [Z].  Python [float] is [Q]: every finite binary64 value
      is a rational, comparisons are exact, and arithmetic is carried out
      without rounding.  The module [Binary64] repeats the arithmetic of the
      lookup with rounding and checks it against the bounds proved over [Q]
      on the ages 0 to 60.
    - A Python exception is the [Raise] outcome of the [res] monad.
    - The element-wise division of two pandas columns does not raise on a zero
      divisor; it yields [inf] or [nan].  Its result type is [npfloat].
    - The trained model and its preprocessor are loaded from files that are not
      part of the program text; they are Section variables. *)

From Stdlib Require Import ZArith QArith Qminmax List String Bool Lia Lqa.
From Stdlib Require Import PrimFloat Uint63.
Import ListNotations.

(* Decimal literals are rounded to the nearest binary64 value, as in Python. *)
Set Warnings "-inexact-float".

Local Open Scope Z_scope.

(* ===================================================================== *)
(** ** Exceptions and the result monad *)
(* ===================================================================== *)

Inductive exn : Type :=
| ValueError          (* min() of an empty sequence, list.index miss *)
| KeyError            (* dict lookup miss *)
| IndexError          (* list index out of range *)
| ZeroDivisionError   (* int or float division by zero *)
| Exception (msg : string).   (* raised by the preprocessor or the model *)

Inductive res (A : Type) : Type :=
| Ok (a : A)
| Raise (e : exn).

Arguments Ok {A} a.
Arguments Raise {A} e.

Definition bind {A B : Type} (c : res A) (k : A -> res B) : res B :=
  match c with
  | Ok a => k a
  | Raise e => Raise e
  end.

Declare Scope res_scope.
Delimit Scope res_scope with res.
Notation "x <- c ;; k" := (bind c (fun x => k))
  (at level 61, c at next level, right associativity) : res_scope.
Notation "' p <- c ;; k" := (bind c (fun x => let 'p := x in k))
  (at level 61, p pattern, c at next level, right associativity) : res_scope.
Local Open Scope res_scope.

Definition is_ok {A : Type} (c : res A) : bool :=
  match c with Ok _ => true | Raise _ => false end.

(* ===================================================================== *)
(** ** The Python built-ins the program uses *)
(* ===================================================================== *)

Module Py.

(** [min(xs, key=key)]: the first element whose key is minimal;
    [ValueError] on an empty sequence. *)
Fixpoint min_from {A : Type} (key : A -> Z) (best : A) (xs : list A) : A :=
  match xs with
  | [] => best
  | x :: xs' =>
      if key x <? key best then min_from key x xs' else min_from key best xs'
  end.

Definition min {A : Type} (xs : list A) (key : A -> Z) : res A :=
  match xs with
  | [] => Raise ValueError
  | x :: xs' => Ok (min_from key x xs')
  end.

(** [sorted(xs)] on integers (stable insertion of each element). *)
Fixpoint insert (x : Z) (xs : list Z) : list Z :=
  match xs with
  | [] => [x]
  | y :: ys => if y <=? x then y :: insert x ys else x :: y :: ys
  end.

Definition sorted (xs : list Z) : list Z :=
  fold_left (fun acc x => insert x acc) xs [].

(** [xs.index(v)]: position of the first occurrence. *)
Fixpoint index (v : Z) (xs : list Z) : res nat :=
  match xs with
  | [] => Raise ValueError
  | x :: xs' => if x =? v then Ok O else i <- index v xs' ;; Ok (S i)
  end.

(** [xs[i]] for a non-negative index. *)
Definition nth (xs : list Z) (i : nat) : res Z :=
  match nth_error xs i with
  | Some x => Ok x
  | None => Raise IndexError
  end.

(** [d.keys()] and [d[k]] of a dict kept in insertion order. *)
Definition keys {V : Type} (d : list (Z * V)) : list Z := map fst d.

Fixpoint getitem {V : Type} (d : list (Z * V)) (k : Z) : res V :=
  match d with
  | [] => Raise KeyError
  | (k', v) :: d' => if k' =? k then Ok v else getitem d' k
  end.

(** [a / b] on two ints: true division, a float. *)
Definition truediv (a b : Z) : res Q :=
  if b =? 0 then Raise ZeroDivisionError else Ok (inject_Z a / inject_Z b)%Q.

(** [x / y] on two floats. *)
Definition fdiv (x y : Q) : res Q :=
  if Qeq_bool y 0 then Raise ZeroDivisionError else Ok (x / y)%Q.

(** [x < y] on two floats. *)
Definition flt (x y : Q) : bool := negb (Qle_bool y x).

End Py.

(** Element-wise column arithmetic (numpy): a value of a float64 column. *)
Inductive npfloat : Type :=
| Finite (q : Q)
| PosInf
| NegInf
| NaN.

Module Np.

(** [x / y] on finite column values; the divisor zero is [+0.0]. *)
Definition truediv (x y : Q) : npfloat :=
  if Qeq_bool y 0 then
    if Qeq_bool x 0 then NaN
    else if Py.flt 0 x then PosInf else NegInf
  else Finite (x / y)%Q.

Definition isfinite (x : npfloat) : bool :=
  match x with Finite _ => true | _ => false end.

End Np.

(* ===================================================================== *)
(** ** The WHO reference table (lines 61-72) *)
(* ===================================================================== *)

(** age in months |-> (median M, SD M, median F, SD F), in source order. *)
Definition references : list (Z * (Q * Q * Q * Q)) :=
  [ (0%Z,  (49.9,  1.9, 49.1,  1.9));
    (3%Z,  (61.4,  2.4, 59.8,  2.4));
    (6%Z,  (67.6,  2.5, 65.7,  2.5));
    (9%Z,  (72.3,  2.7, 70.4,  2.7));
    (12%Z, (76.0,  2.8, 74.3,  2.8));
    (18%Z, (82.4,  3.1, 80.7,  3.1));
    (24%Z, (87.8,  3.4, 86.4,  3.4));
    (36%Z, (96.1,  3.8, 95.1,  3.9));
    (48%Z, (102.9, 4.2, 101.9, 4.3));
    (60%Z, (109.1, 4.5, 108.4, 4.6)) ]%Q.

(** The anchor ages, ascending: [sorted(references.keys())]. *)
Definition ages : list Z := Py.sorted (Py.keys references).

(** [references[age][0], references[age][1]] for ['M'], columns 2 and 3
    for any other value of [sex] (lines 85-88, 92-97, 102-105). *)
Definition anchor_value (age : Z) (sex : string) : res (Q * Q) :=
  ' (m_male, sd_male, m_female, sd_female) <- Py.getitem references age ;;
  if String.eqb sex "M" then Ok (m_male, sd_male) else Ok (m_female, sd_female).

(* ===================================================================== *)
(** ** get_height_for_age_reference (lines 57-105) *)
(* ===================================================================== *)

(** The three places where the function returns. *)
Inductive branch : Type :=
| Interpolate (closest_age next_age : Z)   (* lines 90-100 *)
| EdgeAnchor (closest_age : Z)             (* lines 84-88 *)
| SingleAnchor (closest_age : Z).          (* lines 102-105 *)

(** Lines 74-88: the control flow, which does not depend on [sex]. *)
Definition closest_anchor (age_months : Z) : res Z :=
  Py.min (Py.keys references) (fun x => Z.abs (x - age_months)).

Definition select_branch (age_months : Z) : res branch :=
  closest_age <- closest_anchor age_months ;;
  if negb (closest_age =? age_months)
     && (Z.abs (closest_age - age_months) <=? 12)
  then
    idx <- Py.index closest_age ages ;;
    if (closest_age <? age_months) && (idx <? List.length ages - 1)%nat then
      next_age <- Py.nth ages (idx + 1) ;;
      Ok (Interpolate closest_age next_age)
    else if (closest_age >? age_months) && (0 <? idx)%nat then
      next_age <- Py.nth ages (idx - 1) ;;
      (* closest_age, next_age = next_age, closest_age *)
      Ok (Interpolate next_age closest_age)
    else
      Ok (EdgeAnchor closest_age)
  else
    Ok (SingleAnchor closest_age).

(** Lines 90-100: the interpolation between [closest_age] and [next_age]. *)
Definition interpolate (age_months closest_age next_age : Z) (sex : string)
  : res (Q * Q) :=
  let age_diff := next_age - closest_age in
  weight <- Py.truediv (age_months - closest_age) age_diff ;;
  ' (m1, sd1) <- anchor_value closest_age sex ;;
  ' (m2, sd2) <- anchor_value next_age sex ;;
  let median := (m1 + weight * (m2 - m1))%Q in
  let sd := (sd1 + weight * (sd2 - sd1))%Q in
  Ok (median, sd).

Definition get_height_for_age_reference (age_months : Z) (sex : string)
  : res (Q * Q) :=
  b <- select_branch age_months ;;
  match b with
  | Interpolate closest_age next_age =>
      interpolate age_months closest_age next_age sex
  | EdgeAnchor closest_age => anchor_value closest_age sex
  | SingleAnchor closest_age => anchor_value closest_age sex
  end.

(* ===================================================================== *)
(** ** Records *)
(* ===================================================================== *)

(** One row of the input frame. *)
Record row : Type := mkRow {
  Sex : string;
  Age : Z;
  Birth_Weight : Q;
  Birth_Length : Q;
  Body_Weight : Q;
  Body_Length : Q;
  ASI_Eksklusif : string
}.

(** The row after feature engineering (lines 134-135). *)
Record features : Type := mkFeatures {
  raw : row;
  BMI : npfloat;
  Height_for_Age_Z : Q
}.

(** The dict returned by [predict_stunting] (lines 157-163). *)
Record prediction : Type := mkPrediction {
  stunting_probability : Q;
  stunting_prediction : string;
  who_classification : string;
  height_for_age_z_score : Q;
  bmi : npfloat
}.

(* ===================================================================== *)
(** ** calculate_height_for_age_z (lines 107-114) *)
(* ===================================================================== *)

Definition calculate_height_for_age_z (r : row) : res Q :=
  let age := Age r in
  let height := Body_Length r in
  let sex := Sex r in
  ' (median, sd) <- get_height_for_age_reference age sex ;;
  z_score <- Py.fdiv (height - median)%Q sd ;;
  Ok z_score.

(* ===================================================================== *)
(** ** The WHO decision rule (lines 141-149) *)
(* ===================================================================== *)

(** Returns [(who_classification, who_stunting)]. *)
Definition who_classify (height_for_age_z : Q) : string * string :=
  if Py.flt height_for_age_z (-3) then
    ("Severely stunted (WHO)", "Yes")%string
  else if Py.flt height_for_age_z (-2) then
    ("Stunted (WHO)", "Yes")%string
  else
    ("Not stunted (WHO)", "No")%string.

(** The categories and the flag as the specification names them. *)
Inductive category : Type := Normal | Stunted | SeverelyStunted.

Definition category_label (c : category) : string :=
  match c with
  | Normal => "Not stunted (WHO)"
  | Stunted => "Stunted (WHO)"
  | SeverelyStunted => "Severely stunted (WHO)"
  end.

Definition flag_label (is_stunted : bool) : string :=
  if is_stunted then "Yes" else "No".

Definition verdict (c : category) (is_stunted : bool) : string * string :=
  (category_label c, flag_label is_stunted).

(* ===================================================================== *)
(** ** predict_stunting (lines 128-163) and the batch loop (lines 343-387) *)
(* ===================================================================== *)

Definition body_mass_index (r : row) : npfloat :=
  Np.truediv (Body_Weight r) ((Body_Length r / 100) ^ 2)%Q.

Section Pipeline.

(** [preprocessor.transform] and [model.predict(...).ravel()[0]]. *)
Variable Tensor : Type.
Variable transform : features -> res Tensor.
Variable predict : Tensor -> res Q.

Definition predict_stunting (data : row) : res prediction :=
  let data_BMI := body_mass_index data in
  height_for_age_z <- calculate_height_for_age_z data ;;
  let '(who_class, who_stunting) := who_classify height_for_age_z in
  let data_copy := mkFeatures data data_BMI height_for_age_z in
  processed_data <- transform data_copy ;;
  probability <- predict processed_data ;;
  Ok {| stunting_probability := probability;
        stunting_prediction := who_stunting;
        who_classification := who_class;
        height_for_age_z_score := height_for_age_z;
        bmi := data_BMI |}.

(** Lines 343-350: [results = []; for row in batch: results.append(...)]. *)
Fixpoint batch_loop (batch_data : list row) (results : list prediction)
  : res (list prediction) :=
  match batch_data with
  | [] => Ok results
  | r :: rest =>
      result <- predict_stunting r ;;
      batch_loop rest (results ++ [result])
  end.

(** What the page shows for a batch: the table of results (line 357), or
    the message of the handler that encloses the whole loop
    (lines 334, 386-387). *)
Inductive batch_outcome : Type :=
| Processed (results : list prediction)
| ErrorShown (e : exn).

Definition predict_batch (batch_data : list row) : batch_outcome :=
  match batch_loop batch_data [] with
  | Ok results => Processed results
  | Raise e => ErrorShown e
  end.

End Pipeline.

(* ===================================================================== *)
(** ** Vocabulary of the statements *)
(* ===================================================================== *)

(** The integers strictly between two bounds, as a list. *)
Definition strictly_between (lo hi : Z) : list Z :=
  map (fun k => lo + 1 + Z.of_nat k) (seq 0 (Z.to_nat (hi - lo - 1))).

(** Two anchors next to each other in [ages]. *)
Definition adjacent_pairs : list (Z * Z) := combine ages (tl ages).

(** The fractional weight of [age_months] between two anchors. *)
Definition weight_between (age_months lowAge highAge : Z) : Q :=
  (inject_Z (age_months - lowAge) / inject_Z (highAge - lowAge))%Q.

(** [value = valueLow + w * (valueHigh - valueLow)]. *)
Definition lerp (w valueLow valueHigh : Q) : Q :=
  (valueLow + w * (valueHigh - valueLow))%Q.

(** Only the test [sex == 'M'] is made on the sex. *)
Definition column_of (sex : string) : string :=
  if String.eqb sex "M" then "M" else "F".

(** The two rows behind the example buttons (lines 315-325). *)
Definition example_normal : row :=
  mkRow "M" 12 3.2 50.0 9.5 75.0 "Yes".

Definition example_stunting : row :=
  mkRow "F" 24 2.3 47.0 8.5 79.0 "No".

Definition with_body_length (r : row) (body_length : Q) : row :=
  mkRow (Sex r) (Age r) (Birth_Weight r) (Birth_Length r) (Body_Weight r)
        body_length (ASI_Eksklusif r).

(** Two stand-ins for the trained artefacts: a preprocessor that accepts
    every row, one that rejects a row holding a non-finite number (as a
    scaler that validates its input does), and a model with a constant
    output. *)
Definition accept_all (f : features) : res features := Ok f.

Definition reject_non_finite (f : features) : res features :=
  if Np.isfinite (BMI f) then Ok f
  else Raise (Exception "Input contains infinity or NaN").

Definition constant_model (f : features) : res Q := Ok 0.5%Q.

(* ===================================================================== *)
(** ** The arithmetic of the lookup replayed in IEEE binary64 *)
(* ===================================================================== *)

(** The control flow of the lookup works on integers only ([select_branch]);
    its arithmetic (lines 91-99, 113) is repeated here on the kernel's
    binary64 numbers, with the table literals rounded as Python reads them. *)
Module Binary64.

Definition references : list (Z * (float * float * float * float)) :=
  [ (0%Z,  (49.9,  1.9, 49.1,  1.9));
    (3%Z,  (61.4,  2.4, 59.8,  2.4));
    (6%Z,  (67.6,  2.5, 65.7,  2.5));
    (9%Z,  (72.3,  2.7, 70.4,  2.7));
    (12%Z, (76.0,  2.8, 74.3,  2.8));
    (18%Z, (82.4,  3.1, 80.7,  3.1));
    (24%Z, (87.8,  3.4, 86.4,  3.4));
    (36%Z, (96.1,  3.8, 95.1,  3.9));
    (48%Z, (102.9, 4.2, 101.9, 4.3));
    (60%Z, (109.1, 4.5, 108.4, 4.6)) ]%float.

(** An int below 2^53 as a float (exact). *)
Definition of_int (z : Z) : float :=
  match z with
  | Z0 => 0%float
  | Zpos _ => PrimFloat.of_uint63 (Uint63.of_Z z)
  | Zneg p => PrimFloat.opp (PrimFloat.of_uint63 (Uint63.of_Z (Zpos p)))
  end.

Definition anchor_value (age : Z) (sex : string) : res (float * float) :=
  ' (m_male, sd_male, m_female, sd_female) <- Py.getitem references age ;;
  if String.eqb sex "M" then Ok (m_male, sd_male) else Ok (m_female, sd_female).

Definition interpolate (age_months closest_age next_age : Z) (sex : string)
  : res (float * float) :=
  let age_diff := next_age - closest_age in
  weight <- (if age_diff =? 0 then Raise ZeroDivisionError
             else Ok (of_int (age_months - closest_age) / of_int age_diff)%float) ;;
  ' (m1, sd1) <- anchor_value closest_age sex ;;
  ' (m2, sd2) <- anchor_value next_age sex ;;
  let median := (m1 + weight * (m2 - m1))%float in
  let sd := (sd1 + weight * (sd2 - sd1))%float in
  Ok (median, sd).

Definition get_height_for_age_reference (age_months : Z) (sex : string)
  : res (float * float) :=
  b <- select_branch age_months ;;
  match b with
  | Interpolate closest_age next_age =>
      interpolate age_months closest_age next_age sex
  | EdgeAnchor closest_age => anchor_value closest_age sex
  | SingleAnchor closest_age => anchor_value closest_age sex
  end.

Definition z_score (height : float) (age : Z) (sex : string) : res float :=
  ' (median, sd) <- get_height_for_age_reference age sex ;;
  if PrimFloat.eqb sd 0 then Raise ZeroDivisionError
  else Ok ((height - median) / sd)%float.

Definition who_classify (height_for_age_z : float) : string * string :=
  if PrimFloat.ltb height_for_age_z (-3) then
    ("Severely stunted (WHO)", "Yes")%string
  else if PrimFloat.ltb height_for_age_z (-2) then
    ("Stunted (WHO)", "Yes")%string
  else
    ("Not stunted (WHO)", "No")%string.

(** What the rational model proves of a lookup, tested on the binary64
    result: the SD is at least 1.9 and, between two anchors, median and SD
    lie between the anchors' values. *)
Definition within (x lo hi : float) : bool :=
  (PrimFloat.leb lo x && PrimFloat.leb x hi)
  || (PrimFloat.leb hi x && PrimFloat.leb x lo).

Definition lookup_agrees (age_months : Z) (sex : string) : bool :=
  match get_height_for_age_reference age_months sex with
  | Raise _ => false
  | Ok (median, sd) =>
      PrimFloat.leb 1.9 sd
      && match select_branch age_months with
         | Ok (Interpolate lo hi) =>
             match anchor_value lo sex, anchor_value hi sex with
             | Ok (m1, sd1), Ok (m2, sd2) =>
                 within median m1 m2 && within sd sd1 sd2
             | _, _ => false
             end
         | _ => true
         end
  end.

End Binary64.

(** The ages the slider of the form offers (line 209): 0 to 60 months. *)
Definition months : list Z := map Z.of_nat (seq 0 61).

(* ===================================================================== *)
(** ** The page: strings, the form, the displays (lines 165-190, 205-288) *)
(* ===================================================================== *)

Module PyStr.

(** [sub in s] on two strings: [sub] occurs in [s] (case-sensitive). *)
Fixpoint contains (sub s : string) : bool :=
  String.prefix sub s
  || match s with
     | EmptyString => false
     | String _ s' => contains sub s'
     end.

(** [sep.join(xs)]. *)
Definition join (sep : string) (xs : list string) : string :=
  String.concat sep xs.

End PyStr.

(** The bounds of the input widgets (lines 208-218): the two select boxes,
    the age slider and the four number inputs. *)
Definition form_accepts (r : row) : bool :=
  (String.eqb (Sex r) "M" || String.eqb (Sex r) "F")
  && (0 <=? Age r) && (Age r <=? 60)
  && (String.eqb (ASI_Eksklusif r) "Yes" || String.eqb (ASI_Eksklusif r) "No")
  && Qle_bool 1.0 (Birth_Weight r) && Qle_bool (Birth_Weight r) 5.0
  && Qle_bool 30.0 (Birth_Length r) && Qle_bool (Birth_Length r) 60.0
  && Qle_bool 2.0 (Body_Weight r) && Qle_bool (Body_Weight r) 30.0
  && Qle_bool 40.0 (Body_Length r) && Qle_bool (Body_Length r) 120.0.

(** Lines 246-254: the style of the result box, chosen by substring tests
    on the classification (the status icon is set in the same branches). *)
Definition css_class_of (result : prediction) : string :=
  if PyStr.contains "Severely stunted" (who_classification result) then
    "severely-stunted"
  else if PyStr.contains "Stunted" (who_classification result) then
    "stunted"
  else
    "not-stunted".

(** Lines 278-283: the interpretation shown beside the legend. *)
Inductive notice : Type := st_error | st_warning | st_success.

Definition interpretation_of (result : prediction) : notice :=
  if Py.flt (height_for_age_z_score result) (-3) then st_error
  else if Py.flt (height_for_age_z_score result) (-2) then st_warning
  else st_success.

(** [create_z_score_chart] (lines 165-190): the gauge of the z-score. *)
Record gauge_step : Type := mkStep {
  step_range : Q * Q;
  step_color : string
}.

Record indicator : Type := mkIndicator {
  gauge_mode : string;
  gauge_value : Q;
  gauge_title : string;
  delta_reference : Q;
  axis_range : Q * Q;
  bar_color : string;
  gauge_steps : list gauge_step;
  threshold_color : string;
  threshold_width : Z;
  threshold_thickness : Q;
  threshold_value : Q;
  layout_height : Z
}.

Definition create_z_score_chart (z_score : Q) : indicator :=
  {| gauge_mode := "gauge+number+delta";
     gauge_value := z_score;
     gauge_title := "Height-for-Age Z-Score";
     delta_reference := -2;
     axis_range := (-4, 2)%Q;
     bar_color := "darkblue";
     gauge_steps := [ mkStep (-4, -3)%Q "red";
                      mkStep (-3, -2)%Q "orange";
                      mkStep (-2, 2)%Q "lightgreen" ];
     threshold_color := "red";
     threshold_width := 4;
     threshold_thickness := 0.75;
     threshold_value := -2;
     layout_height := 300 |}.

(** A z-score strictly inside a band of the gauge. *)
Definition inside (z : Q) (s : gauge_step) : Prop :=
  (fst (step_range s) < z)%Q /\ (z < snd (step_range s))%Q.

(* ===================================================================== *)
(** ** The page: the batch section (lines 327-387) *)
(* ===================================================================== *)

(** Line 339. *)
Definition required_columns : list string :=
  ["Sex"; "Age"; "Birth Weight"; "Birth Length"; "Body Weight";
   "Body Length"; "ASI Eksklusif"]%string.

(** Line 341: [all(col in batch_data.columns for col in required_columns)]. *)
Definition has_required_columns (columns : list string) : bool :=
  forallb (fun col => existsb (String.eqb col) columns) required_columns.

(** Lines 373, 377, 381: [sum(1 for r in results if ...)]. *)
Definition count_if (test : prediction -> bool) (results : list prediction)
  : Z :=
  Z.of_nat (List.length (filter test results)).

Definition normal_count (results : list prediction) : Z :=
  count_if (fun r => PyStr.contains "Not stunted" (who_classification r))
           results.

Definition stunted_count (results : list prediction) : Z :=
  count_if (fun r => PyStr.contains "Stunted" (who_classification r)
                     && negb (PyStr.contains "Severely"
                                             (who_classification r)))
           results.

Definition severe_count (results : list prediction) : Z :=
  count_if (fun r => PyStr.contains "Severely stunted" (who_classification r))
           results.

(** [count / len(results) * 100] (lines 374, 378, 382). *)
Definition percent_of (count : Z) (results : list prediction) : res Q :=
  share <- Py.truediv count (Z.of_nat (List.length results)) ;;
  Ok (share * 100)%Q.

(** What the section puts on the page, in order. *)
Inductive element : Type :=
| Preview (rows : list row)                       (* lines 336-337 *)
| ColumnsError (msg : string)                     (* line 384 *)
| ExceptionError (e : exn)                        (* line 387 *)
| Progress (fraction : Q)                         (* lines 344, 350 *)
| Success (n : nat)                               (* line 356 *)
| ResultTable (table : list (row * prediction))   (* lines 354, 357 *)
| DownloadButton                                  (* lines 360-366 *)
| Metric (label : string) (count : Z) (percent : Q).
    (* lines 374, 378, 382; the percentage is printed with one decimal *)

(** A computation that writes elements and may raise: what was written
    before an exception stays on the page. *)
Definition page (A : Type) : Type := list element * res A.

Definition page_bind {A B : Type} (c : page A) (k : A -> page B) : page B :=
  match c with
  | (out, Ok a) => let '(out', r) := k a in (out ++ out', r)
  | (out, Raise e) => (out, Raise e)
  end.

Definition show (el : element) : page unit := ([el], Ok tt).

Definition run {A : Type} (c : res A) : page A := ([], c).

(** [try: c except Exception as e: handler(e)]. *)
Definition try_except (c : page unit) (handler : exn -> page unit)
  : page unit :=
  match c with
  | (out, Ok tt) => (out, Ok tt)
  | (out, Raise e) => let '(out', r) := handler e in (out ++ out', r)
  end.

Declare Scope page_scope.
Delimit Scope page_scope with page.
Notation "x <~ c ;; k" := (page_bind c (fun x => k))
  (at level 61, c at next level, right associativity) : page_scope.
Notation "c ;;; k" := (page_bind c (fun _ => k))
  (at level 61, right associativity) : page_scope.

Section BatchSection.

Variable Tensor : Type.
Variable transform : features -> res Tensor.
Variable predict : Tensor -> res Q.

(** Lines 346-350, with the progress bar: [i] is the index label of the row,
    counted from 0 as [read_csv] numbers the rows. *)
Fixpoint batch_rows (total : Z) (i : Z) (rows : list row)
         (results : list prediction) : page (list prediction) :=
  match rows with
  | [] => run (Ok results)
  | r :: rest =>
      (result <~ run (predict_stunting Tensor transform predict r) ;;
       fraction <~ run (Py.truediv (i + 1) total) ;;
       show (Progress fraction) ;;;
       batch_rows total (i + 1) rest (results ++ [result]))%page
  end.

(** Lines 368-382: the three metrics, left to right. *)
Definition summary (results : list prediction) : page unit :=
  (let normal := normal_count results in
   p1 <~ run (percent_of normal results) ;;
   show (Metric "Normal" normal p1) ;;;
   let stunted := stunted_count results in
   p2 <~ run (percent_of stunted results) ;;
   show (Metric "Stunted" stunted p2) ;;;
   let severe := severe_count results in
   p3 <~ run (percent_of severe results) ;;
   show (Metric "Severely Stunted" severe p3))%page.

(** Lines 333-387 for an uploaded table that was read: its column names, its
    rows, and whether the run button was pressed. *)
Definition batch_section (columns : list string) (batch_data : list row)
           (button : bool) : page unit :=
  try_except
    (show (Preview (firstn 5 batch_data)) ;;;
     if has_required_columns columns then
       if button then
         show (Progress 0) ;;;
         results <~ batch_rows (Z.of_nat (List.length batch_data)) 0
                               batch_data [] ;;
         show (Success (List.length batch_data)) ;;;
         show (ResultTable (combine batch_data results)) ;;;
         show DownloadButton ;;;
         summary results
       else run (Ok tt)
     else
       show (ColumnsError
               ("File CSV harus memiliki kolom: "
                ++ PyStr.join ", " required_columns)))%page
    (fun e => show (ExceptionError e)).

End BatchSection.

(** The progress values among the elements of a page. *)
Definition progress_values (out : list element) : list Q :=
  flat_map (fun el => match el with Progress q => [q] | _ => [] end) out.

(** The progress updates of [k] rows processed from index [i] on. *)
Fixpoint progress_marks (total i : Z) (k : nat) : list element :=
  match k with
  | O => []
  | S k' =>
      Progress (inject_Z (i + 1) / inject_Z total)%Q
      :: progress_marks total (i + 1) k'
  end.

(** The three metrics of the summary. *)
Definition metrics (results : list prediction) (p1 p2 p3 : Q)
  : list element :=
  [ Metric "Normal" (normal_count results) p1;
    Metric "Stunted" (stunted_count results) p2;
    Metric "Severely Stunted" (severe_count results) p3 ].

(** The class of a prediction read from its z-score. *)
Definition z_in_class (c : category) (p : prediction) : bool :=
  match c with
  | SeverelyStunted => Py.flt (height_for_age_z_score p) (-3)
  | Stunted => negb (Py.flt (height_for_age_z_score p) (-3))
               && Py.flt (height_for_age_z_score p) (-2)
  | Normal => negb (Py.flt (height_for_age_z_score p) (-2))
  end.

(** The order of two lookups: median and SD both at most the other's. *)
Definition pair_leb (x y : res (Q * Q)) : bool :=
  match x, y with
  | Ok (m1, sd1), Ok (m2, sd2) => Qle_bool m1 m2 && Qle_bool sd1 sd2
  | _, _ => false
  end.

(** The age brought into the range of the table. *)
Definition clamp_age (a : Z) : Z := Z.max 0 (Z.min a 60).

(** [c] is at least as close to [a] as [y] is, and is the lower of the two
    when they are equally close. *)
Definition closer_or_lower (a c y : Z) : bool :=
  (Z.abs (c - a) <? Z.abs (y - a))
  || ((Z.abs (c - a) =? Z.abs (y - a)) && (c <=? y)).

Definition closest_checked (a : Z) : bool :=
  match closest_anchor a with
  | Ok c => forallb (closer_or_lower a c) ages
  | Raise _ => false
  end.

(* ===================================================================== *)
(** ** The lookup on sample ages *)
(* ===================================================================== *)

Example ages_value : ages = [0; 3; 6; 9; 12; 18; 24; 36; 48; 60].
Proof. reflexivity. Qed.

Example reference_12_M : get_height_for_age_reference 12 "M" = Ok (76.0, 2.8)%Q.
Proof. reflexivity. Qed.

Example reference_13_M :
  get_height_for_age_reference 13 "M"
  = Ok (76.0 + (inject_Z 1 / inject_Z 6) * (82.4 - 76.0),
        2.8 + (inject_Z 1 / inject_Z 6) * (3.1 - 2.8))%Q.
Proof. reflexivity. Qed.

Example reference_15_M_tie : select_branch 15 = Ok (Interpolate 12 18).
Proof. reflexivity. Qed.

Example reference_17_M : select_branch 17 = Ok (Interpolate 12 18).
Proof. reflexivity. Qed.

Example reference_66 : select_branch 66 = Ok (EdgeAnchor 60).
Proof. reflexivity. Qed.

Example reference_80 : select_branch 80 = Ok (SingleAnchor 60).
Proof. reflexivity. Qed.

Example reference_neg : select_branch (-2) = Ok (EdgeAnchor 0).
Proof. reflexivity. Qed.

(* ===================================================================== *)
(** ** Basic facts about the built-ins *)
(* ===================================================================== *)

Lemma flt_true_iff (x y : Q) : Py.flt x y = true <-> (x < y)%Q.
Proof.
  unfold Py.flt. rewrite negb_true_iff.
  split; intro H.
  - apply Qnot_le_lt. intro Hle. apply Qle_bool_iff in Hle. congruence.
  - destruct (Qle_bool y x) eqn:E; [|reflexivity].
    apply Qle_bool_iff in E. exfalso. apply (Qlt_not_le _ _ H E).
Qed.

Lemma flt_false_iff (x y : Q) : Py.flt x y = false <-> (y <= x)%Q.
Proof.
  unfold Py.flt. rewrite negb_false_iff. apply Qle_bool_iff.
Qed.

(** [min] returns an element of the sequence whose key is minimal. *)
Lemma min_from_In {A : Type} (key : A -> Z) (xs : list A) :
  forall best, In (Py.min_from key best xs) (best :: xs).
Proof.
  induction xs as [|x xs IH]; intro best; simpl.
  - now left.
  - destruct (key x <? key best).
    + right. apply IH.
    + destruct (IH best) as [H|H]; [now left | right; now right].
Qed.

Lemma min_from_le {A : Type} (key : A -> Z) (xs : list A) :
  forall best y, In y (best :: xs) ->
                 key (Py.min_from key best xs) <= key y.
Proof.
  induction xs as [|x xs IH]; intros best y Hy; simpl.
  - destruct Hy as [->|[]]. lia.
  - destruct (Z.ltb_spec (key x) (key best)) as [Hlt|Hge].
    + destruct Hy as [->|[->|Hy]].
      * specialize (IH x x (or_introl eq_refl)). lia.
      * apply IH. now left.
      * apply IH. now right.
    + destruct Hy as [->|[->|Hy]].
      * apply IH. now left.
      * specialize (IH best best (or_introl eq_refl)). lia.
      * apply IH. now right.
Qed.

Lemma min_spec {A : Type} (key : A -> Z) (xs : list A) (m : A) :
  Py.min xs key = Ok m ->
  In m xs /\ forall y, In y xs -> key m <= key y.
Proof.
  destruct xs as [|x xs]; simpl; [discriminate|].
  intro H. injection H as <-. split.
  - apply min_from_In.
  - intros y Hy. now apply min_from_le.
Qed.

(* ===================================================================== *)
(** ** The decision rule *)
(* ===================================================================== *)

Lemma who_classify_severe (z : Q) :
  (z < -3)%Q -> who_classify z = verdict SeverelyStunted true.
Proof.
  intro H. unfold who_classify.
  now rewrite (proj2 (flt_true_iff z (-3)) H).
Qed.

Lemma who_classify_stunted (z : Q) :
  (-3 <= z)%Q -> (z < -2)%Q -> who_classify z = verdict Stunted true.
Proof.
  intros H1 H2. unfold who_classify.
  rewrite (proj2 (flt_false_iff z (-3)) H1).
  now rewrite (proj2 (flt_true_iff z (-2)) H2).
Qed.

Lemma who_classify_normal (z : Q) :
  (-2 <= z)%Q -> who_classify z = verdict Normal false.
Proof.
  intro H. unfold who_classify.
  assert (H3 : (-3 <= z)%Q) by lra.
  rewrite (proj2 (flt_false_iff z (-3)) H3).
  now rewrite (proj2 (flt_false_iff z (-2)) H).
Qed.

(** Whatever the preprocessor and the model are, the two WHO fields of a
    prediction are those of the row's z-score. *)
Lemma predict_stunting_fields
      (Tensor : Type) (transform : features -> res Tensor)
      (predict : Tensor -> res Q) (data : row) (p : prediction) :
  predict_stunting Tensor transform predict data = Ok p ->
  calculate_height_for_age_z data = Ok (height_for_age_z_score p)
  /\ (who_classification p, stunting_prediction p)
     = who_classify (height_for_age_z_score p)
  /\ bmi p = body_mass_index data.
Proof.
  unfold predict_stunting.
  destruct (calculate_height_for_age_z data) as [z|e]; simpl; [|discriminate].
  destruct (who_classify z) as [c s] eqn:Hc.
  destruct (transform _) as [t|e]; simpl; [|discriminate].
  destruct (predict t) as [q|e]; simpl; [|discriminate].
  intro H. injection H as <-. cbn [height_for_age_z_score who_classification stunting_prediction bmi]. now rewrite Hc.
Qed.

(* ===================================================================== *)
(** ** The reference table *)
(* ===================================================================== *)

Lemma keys_sorted : Py.keys references = ages.
Proof. reflexivity. Qed.

Lemma adjacent_pairs_value :
  adjacent_pairs
  = [(0, 3); (3, 6); (6, 9); (9, 12); (12, 18); (18, 24); (24, 36);
     (36, 48); (48, 60)].
Proof. reflexivity. Qed.

(** The sex enters through [column_of] only. *)
Lemma anchor_value_column (age : Z) (sex : string) :
  anchor_value age sex = anchor_value age (column_of sex).
Proof.
  unfold anchor_value, column_of.
  destruct (Py.getitem references age) as [[[[mM sdM] mF] sdF]|e]; simpl;
    [|reflexivity].
  destruct (String.eqb sex "M"); reflexivity.
Qed.

Lemma column_of_cases (sex : string) : column_of sex = "M"%string \/ column_of sex = "F"%string.
Proof. unfold column_of. destruct (String.eqb sex "M"); auto. Qed.

(** Every entry of the table is read back as written. *)
Lemma anchor_value_entry (A : Z) (mM sdM mF sdF : Q) (sex : string) :
  In (A, (mM, sdM, mF, sdF)) references ->
  anchor_value A sex
  = Ok (if String.eqb sex "M" then (mM, sdM) else (mF, sdF)).
Proof.
  intro H. unfold anchor_value.
  simpl in H.
  repeat (destruct H as [H|H];
          [injection H as <- <- <- <- <-; simpl;
           destruct (String.eqb sex "M"); reflexivity|]).
  destruct H.
Qed.

(** A successful dict lookup returns an item of the dict. *)
Lemma getitem_In {V : Type} (d : list (Z * V)) (k : Z) (v : V) :
  Py.getitem d k = Ok v -> In (k, v) d.
Proof.
  induction d as [|[k' v'] d IH]; simpl; [discriminate|].
  destruct (Z.eqb_spec k' k) as [->|Hne].
  - intro H. injection H as ->. now left.
  - intro H. right. now apply IH.
Qed.

(** Every tabulated standard deviation is at least 1.9. *)
Lemma anchor_value_sd (A : Z) (sex : string) (m sd : Q) :
  anchor_value A sex = Ok (m, sd) -> (1.9 <= sd)%Q.
Proof.
  unfold anchor_value.
  destruct (Py.getitem references A) as [[[[mM sdM] mF] sdF]|e] eqn:E;
    simpl; [|discriminate].
  apply getitem_In in E. simpl in E.
  repeat (destruct E as [E|E];
          [injection E as <- <- <- <- <-;
           destruct (String.eqb sex "M"); intro H; injection H as <- <-;
           unfold Qle; simpl; lia|]).
  destruct E.
Qed.

(** An age of the supported range is an anchor or lies strictly between
    two adjacent anchors. *)
Lemma months_cover (a : Z) :
  0 <= a <= 60 ->
  In a ages \/ exists lo hi, In (lo, hi) adjacent_pairs /\ lo < a < hi.
Proof.
  intro Ha. rewrite adjacent_pairs_value.
  change ages with [0; 3; 6; 9; 12; 18; 24; 36; 48; 60].
  assert (C : a = 0 \/ a = 3 \/ a = 6 \/ a = 9 \/ a = 12 \/ a = 18
              \/ a = 24 \/ a = 36 \/ a = 48 \/ a = 60
              \/ 0 < a < 3 \/ 3 < a < 6 \/ 6 < a < 9 \/ 9 < a < 12
              \/ 12 < a < 18 \/ 18 < a < 24 \/ 24 < a < 36
              \/ 36 < a < 48 \/ 48 < a < 60) by lia.
  repeat (destruct C as [C|C]);
    first [ subst a; left; simpl; tauto
          | right;
            match type of C with
            | ?lo < a < ?hi => exists lo, hi; split; [simpl; tauto | exact C]
            end ].
Qed.

Lemma strictly_between_In (lo hi a : Z) :
  lo < a < hi -> In a (strictly_between lo hi).
Proof.
  intro H. unfold strictly_between.
  apply in_map_iff. exists (Z.to_nat (a - lo - 1)). split; [lia|].
  apply in_seq. lia.
Qed.

(** Between two adjacent anchors the function takes the interpolation
    branch, from the lower to the higher anchor. *)
Lemma select_branch_between (lo hi a : Z) :
  In (lo, hi) adjacent_pairs -> lo < a < hi ->
  select_branch a = Ok (Interpolate lo hi).
Proof.
  intros Hp Ha. rewrite adjacent_pairs_value in Hp. simpl in Hp.
  repeat (destruct Hp as [Hp|Hp];
          [injection Hp as <- <-;
           apply strictly_between_In in Ha; vm_compute in Ha;
           repeat (destruct Ha as [<-|Ha]; [reflexivity|]); destruct Ha|]).
  destruct Hp.
Qed.

Lemma select_branch_anchor (A : Z) :
  In A ages -> select_branch A = Ok (SingleAnchor A).
Proof.
  intro H. vm_compute in H.
  repeat (destruct H as [<-|H]; [reflexivity|]). destruct H.
Qed.

(* ===================================================================== *)
(** ** Interpolation *)
(* ===================================================================== *)

(** Lines 90-99 on two tabulated anchors: both columns are interpolated
    with the same weight. *)
Lemma interpolate_lerp (a lo hi : Z) (sex : string) (mLo sdLo mHi sdHi : Q) :
  lo <> hi ->
  anchor_value lo sex = Ok (mLo, sdLo) ->
  anchor_value hi sex = Ok (mHi, sdHi) ->
  interpolate a lo hi sex
  = Ok (lerp (weight_between a lo hi) mLo mHi,
        lerp (weight_between a lo hi) sdLo sdHi).
Proof.
  intros Hne Hlo Hhi. unfold interpolate, Py.truediv.
  destruct (Z.eqb_spec (hi - lo) 0) as [E|_]; [lia|].
  cbn [bind]. rewrite Hlo, Hhi. reflexivity.
Qed.

(** Both ends of an adjacent pair are tabulated, the lower one first. *)
Lemma adjacent_pairs_tabulated (lo hi : Z) (sex : string) :
  In (lo, hi) adjacent_pairs ->
  lo < hi /\ In lo ages /\ In hi ages
  /\ exists mLo sdLo mHi sdHi,
       anchor_value lo sex = Ok (mLo, sdLo)
       /\ anchor_value hi sex = Ok (mHi, sdHi).
Proof.
  intro Hp. rewrite adjacent_pairs_value in Hp. simpl in Hp.
  rewrite !(anchor_value_column _ sex).
  repeat (destruct Hp as [Hp|Hp];
          [injection Hp as <- <-;
           (split; [lia|]); (split; [vm_compute; tauto|]);
           (split; [vm_compute; tauto|]);
           destruct (column_of_cases sex) as [-> | ->];
           do 4 eexists; split; reflexivity|]).
  destruct Hp.
Qed.

Lemma weight_between_bounds (a lo hi : Z) :
  lo < a < hi ->
  (0 < weight_between a lo hi)%Q /\ (weight_between a lo hi < 1)%Q.
Proof.
  intros [H1 H2]. unfold weight_between.
  assert (Hd : (0 < inject_Z (hi - lo))%Q)
    by (rewrite <- (Zlt_Qlt 0); lia).
  split.
  - apply Qlt_shift_div_l; [exact Hd|].
    rewrite Qmult_0_l, <- (Zlt_Qlt 0). lia.
  - apply Qlt_shift_div_r; [exact Hd|].
    rewrite Qmult_1_l, <- Zlt_Qlt. lia.
Qed.

(** A weight in [0, 1] keeps the interpolated value between the ends. *)
Lemma lerp_between (w x y : Q) :
  (0 <= w)%Q -> (w <= 1)%Q ->
  (Qmin x y <= lerp w x y)%Q /\ (lerp w x y <= Qmax x y)%Q.
Proof.
  intros H0 H1. unfold lerp.
  destruct (Qlt_le_dec x y) as [Hxy|Hyx].
  - rewrite (Q.min_l x y), (Q.max_r x y) by lra.
    split; nra.
  - rewrite (Q.min_r x y), (Q.max_l x y) by lra.
    split; nra.
Qed.

Lemma lerp_lower_bound (w x y b : Q) :
  (0 <= w)%Q -> (w <= 1)%Q -> (b <= x)%Q -> (b <= y)%Q -> (b <= lerp w x y)%Q.
Proof.
  intros H0 H1 Hx Hy.
  destruct (lerp_between w x y H0 H1) as [Hmin _].
  apply Qle_trans with (Qmin x y); [|exact Hmin].
  apply Q.min_glb; assumption.
Qed.

(* ===================================================================== *)
(** ** The closest anchor *)
(* ===================================================================== *)

Lemma closest_anchor_spec (a : Z) :
  exists c, closest_anchor a = Ok c
            /\ In c ages
            /\ forall y, In y ages -> Z.abs (c - a) <= Z.abs (y - a).
Proof.
  unfold closest_anchor.
  destruct (Py.min (Py.keys references) (fun x => Z.abs (x - a)))
    as [c|e] eqn:E.
  - exists c. split; [reflexivity|].
    apply min_spec in E. rewrite keys_sorted in E. exact E.
  - discriminate E.
Qed.

(** In the supported range some anchor is at most 6 months away. *)
Lemma anchor_nearby (a : Z) :
  0 <= a <= 60 -> exists y, In y ages /\ Z.abs (y - a) <= 6.
Proof.
  intro Ha.
  assert (C : a <= 6 \/ 6 < a <= 18 \/ 18 < a <= 30 \/ 30 < a <= 42
              \/ 42 < a <= 54 \/ 54 < a) by lia.
  destruct C as [C|[C|[C|[C|[C|C]]]]];
    [exists 3 | exists 12 | exists 24 | exists 36 | exists 48 | exists 60];
    (split; [vm_compute; tauto | lia]).
Qed.

Lemma closest_anchor_within_6 (a : Z) :
  0 <= a <= 60 ->
  exists c, closest_anchor a = Ok c /\ In c ages /\ Z.abs (c - a) <= 6.
Proof.
  intro Ha.
  destruct (closest_anchor_spec a) as (c & Hc & Hin & Hmin).
  destruct (anchor_nearby a Ha) as (y & Hy & Hy6).
  exists c. repeat split; try assumption.
  specialize (Hmin y Hy). lia.
Qed.

(** The reference of an age in the supported range, by cases. *)
Lemma reference_in_range (a : Z) (sex : string) :
  0 <= a <= 60 ->
  (In a ages
   /\ select_branch a = Ok (SingleAnchor a)
   /\ get_height_for_age_reference a sex = anchor_value a sex
   /\ exists m sd, anchor_value a sex = Ok (m, sd))
  \/
  (exists lo hi mLo sdLo mHi sdHi,
      In (lo, hi) adjacent_pairs /\ lo < a < hi
      /\ select_branch a = Ok (Interpolate lo hi)
      /\ anchor_value lo sex = Ok (mLo, sdLo)
      /\ anchor_value hi sex = Ok (mHi, sdHi)
      /\ get_height_for_age_reference a sex
         = Ok (lerp (weight_between a lo hi) mLo mHi,
               lerp (weight_between a lo hi) sdLo sdHi)).
Proof.
  intro Ha. destruct (months_cover a Ha) as [Hin|(lo & hi & Hp & Hb)].
  - left. pose proof (select_branch_anchor a Hin) as Hs.
    split; [exact Hin|]. split; [exact Hs|].
    unfold get_height_for_age_reference. rewrite Hs. cbn [bind].
    split; [reflexivity|].
    rewrite anchor_value_column. vm_compute in Hin.
    destruct (column_of_cases sex) as [-> | ->];
      repeat (destruct Hin as [<-|Hin]; [do 2 eexists; reflexivity|]);
      destruct Hin.
  - right.
    destruct (adjacent_pairs_tabulated lo hi sex Hp)
      as (Hlt & _ & _ & mLo & sdLo & mHi & sdHi & Hlo & Hhi).
    exists lo, hi, mLo, sdLo, mHi, sdHi.
    pose proof (select_branch_between lo hi a Hp Hb) as Hs.
    repeat (split; [assumption || lia|]).
    unfold get_height_for_age_reference. rewrite Hs. cbn [bind].
    apply interpolate_lerp; [lia | assumption | assumption].
Qed.

(** In the supported range the standard deviation is at least 1.9. *)
Lemma reference_sd_in_range (a : Z) (sex : string) :
  0 <= a <= 60 ->
  exists median sd,
    get_height_for_age_reference a sex = Ok (median, sd) /\ (1.9 <= sd)%Q.
Proof.
  intro Ha.
  destruct (reference_in_range a sex Ha)
    as [(_ & _ & Hg & m & sd & Hv)
       |(lo & hi & mLo & sdLo & mHi & sdHi & _ & Hb & _ & Hlo & Hhi & Hg)].
  - exists m, sd. rewrite Hg. split; [exact Hv|].
    exact (anchor_value_sd _ _ _ _ Hv).
  - eexists _, _. split; [exact Hg|].
    destruct (weight_between_bounds a lo hi Hb) as [W0 W1].
    apply lerp_lower_bound; try lra.
    + exact (anchor_value_sd _ _ _ _ Hlo).
    + exact (anchor_value_sd _ _ _ _ Hhi).
Qed.

Lemma fdiv_nonzero (x y : Q) : (0 < y)%Q -> Py.fdiv x y = Ok (x / y)%Q.
Proof.
  intro H. unfold Py.fdiv.
  destruct (Qeq_bool y 0) eqn:E; [|reflexivity].
  apply Qeq_bool_iff in E. lra.
Qed.

(** [calculate_height_for_age_z] on an age of the supported range. *)
Lemma z_score_in_range (r : row) :
  0 <= Age r <= 60 ->
  exists median sd,
    get_height_for_age_reference (Age r) (Sex r) = Ok (median, sd)
    /\ (1.9 <= sd)%Q
    /\ calculate_height_for_age_z r = Ok ((Body_Length r - median) / sd)%Q.
Proof.
  intro Ha.
  destruct (reference_sd_in_range (Age r) (Sex r) Ha) as (m & sd & Hg & Hsd).
  exists m, sd. repeat split; try assumption.
  unfold calculate_height_for_age_z. rewrite Hg. cbn [bind].
  rewrite fdiv_nonzero by lra. reflexivity.
Qed.

(* ===================================================================== *)
(** ** Outside the supported range *)
(* ===================================================================== *)

Lemma closest_anchor_below (a : Z) : a < 0 -> closest_anchor a = Ok 0.
Proof.
  intro Ha. destruct (closest_anchor_spec a) as (c & Hc & Hin & Hmin).
  assert (H0 : In 0 ages) by (vm_compute; tauto).
  specialize (Hmin 0 H0). rewrite Hc. f_equal.
  vm_compute in Hin.
  repeat (destruct Hin as [<-|Hin]; [lia|]). destruct Hin.
Qed.

Lemma closest_anchor_above (a : Z) : 60 < a -> closest_anchor a = Ok 60.
Proof.
  intro Ha. destruct (closest_anchor_spec a) as (c & Hc & Hin & Hmin).
  assert (H60 : In 60 ages) by (vm_compute; tauto).
  specialize (Hmin 60 H60). rewrite Hc. f_equal.
  vm_compute in Hin.
  repeat (destruct Hin as [<-|Hin]; [lia|]). destruct Hin.
Qed.

(** Below 0 and above 60 the lookup returns the first or the last anchor,
    through the edge branch up to 12 months away and through the direct
    return beyond. *)
Lemma select_branch_below (a : Z) :
  a < 0 ->
  select_branch a = Ok (if Z.abs (0 - a) <=? 12 then EdgeAnchor 0
                        else SingleAnchor 0).
Proof.
  intro Ha. unfold select_branch.
  rewrite (closest_anchor_below a Ha). cbn [bind].
  destruct (Z.eqb_spec 0 a) as [E|_]; [lia|]. cbn [negb andb].
  destruct (Z.abs (0 - a) <=? 12); [|reflexivity].
  change (Py.index 0 ages) with (@Ok nat 0%nat). cbn [bind].
  destruct (Z.ltb_spec 0 a) as [E|_]; [lia|]. cbn [andb].
  change (0 <? 0)%nat with false. now rewrite andb_false_r.
Qed.

Lemma select_branch_above (a : Z) :
  60 < a ->
  select_branch a = Ok (if Z.abs (60 - a) <=? 12 then EdgeAnchor 60
                        else SingleAnchor 60).
Proof.
  intro Ha. unfold select_branch.
  rewrite (closest_anchor_above a Ha). cbn [bind].
  destruct (Z.eqb_spec 60 a) as [E|_]; [lia|]. cbn [negb andb].
  destruct (Z.abs (60 - a) <=? 12); [|reflexivity].
  change (Py.index 60 ages) with (@Ok nat 9%nat). cbn [bind].
  change (9 <? List.length ages - 1)%nat with false.
  rewrite andb_false_r.
  change (Py.nth ages (9 - 1)) with (@Ok Z 48). cbn [bind].
  destruct (Z.gtb_spec 60 a) as [E|_]; [lia|]. reflexivity.
Qed.

(** The lookup never raises, and its SD is at least 1.9 at every age. *)
Lemma reference_total (a : Z) (sex : string) :
  exists median sd,
    get_height_for_age_reference a sex = Ok (median, sd) /\ (1.9 <= sd)%Q.
Proof.
  assert (C : a < 0 \/ 0 <= a <= 60 \/ 60 < a) by lia.
  assert (Hedge : forall c, In c ages ->
            exists m sd, anchor_value c sex = Ok (m, sd) /\ (1.9 <= sd)%Q).
  { intros c Hin. rewrite anchor_value_column.
    assert (He : exists m sd, anchor_value c (column_of sex) = Ok (m, sd)).
    { vm_compute in Hin.
      destruct (column_of_cases sex) as [-> | ->];
        repeat (destruct Hin as [<-|Hin]; [do 2 eexists; reflexivity|]);
        destruct Hin. }
    destruct He as (m & sd & He). exists m, sd. split; [exact He|].
    exact (anchor_value_sd _ _ _ _ He). }
  destruct C as [C|[C|C]].
  - unfold get_height_for_age_reference.
    rewrite (select_branch_below a C). cbn [bind].
    destruct (Z.abs (0 - a) <=? 12); apply Hedge; vm_compute; tauto.
  - now apply reference_sd_in_range.
  - unfold get_height_for_age_reference.
    rewrite (select_branch_above a C). cbn [bind].
    destruct (Z.abs (60 - a) <=? 12); apply Hedge; vm_compute; tauto.
Qed.

(** The z-score is defined for every row. *)
Lemma z_score_total (r : row) :
  exists z, calculate_height_for_age_z r = Ok z.
Proof.
  destruct (reference_total (Age r) (Sex r)) as (m & sd & Hg & Hsd).
  unfold calculate_height_for_age_z. rewrite Hg. cbn [bind].
  rewrite fdiv_nonzero by lra. eexists. reflexivity.
Qed.

(* ===================================================================== *)
(** ** The binary64 replay agrees with the rational model *)
(* ===================================================================== *)

Lemma months_In (a : Z) : 0 <= a <= 60 -> In a months.
Proof.
  intro H. unfold months. apply in_map_iff.
  exists (Z.to_nat a). split; [lia|]. apply in_seq. lia.
Qed.

(** With rounding, each lookup in the supported range still returns an SD of
    at least 1.9 and, between two anchors, values between the anchors'. *)
Lemma binary64_lookup_agrees (a : Z) (sex : string) :
  0 <= a <= 60 -> Binary64.lookup_agrees a sex = true.
Proof.
  intro Ha. apply months_In in Ha. vm_compute in Ha.
  repeat (destruct Ha as [<-|Ha];
          [cbv [Binary64.lookup_agrees Binary64.get_height_for_age_reference
                Binary64.interpolate Binary64.anchor_value];
           destruct (String.eqb sex "M"); vm_compute; reflexivity|]).
  destruct Ha.
Qed.

(** The three worked examples classify the same way with rounding. *)
Lemma binary64_examples :
  (exists z, Binary64.z_score 75.0 12 "M" = Ok z
             /\ Binary64.who_classify z = verdict Normal false)
  /\ (exists z, Binary64.z_score 79.0 24 "F" = Ok z
                /\ Binary64.who_classify z = verdict Stunted true)
  /\ (exists z, Binary64.z_score 70.0 24 "F" = Ok z
                /\ Binary64.who_classify z = verdict SeverelyStunted true)
  /\ Binary64.who_classify (-3.0) = verdict Stunted true
  /\ Binary64.who_classify (-2.0) = verdict Normal false
  /\ Binary64.who_classify (-1.999) = verdict Normal false.
Proof.
  repeat split; try (eexists; split; vm_compute; reflexivity);
    vm_compute; reflexivity.
Qed.

(* ===================================================================== *)
(** ** Claims about the decision rule *)
(* ===================================================================== *)

(** C1.  For every z-score the decision rule returns (SeverelyStunted, true)
    when z < -3, (Stunted, true) when -3 <= z < -2 and (Normal, false) when
    z >= -2; the three intervals are exhaustive and pairwise disjoint; and the
    two WHO fields of a prediction are the rule applied to the z-score of the
    row, whatever preprocessor and model produced the probability. *)
Theorem C1_classification_by_z_score_alone :
  (forall z : Q,
      ((z < -3)%Q -> who_classify z = verdict SeverelyStunted true)
      /\ ((-3 <= z)%Q /\ (z < -2)%Q -> who_classify z = verdict Stunted true)
      /\ ((-2 <= z)%Q -> who_classify z = verdict Normal false)
      /\ ((z < -3)%Q \/ ((-3 <= z)%Q /\ (z < -2)%Q) \/ (-2 <= z)%Q)
      /\ ~ ((z < -3)%Q /\ ((-3 <= z)%Q /\ (z < -2)%Q))
      /\ ~ ((z < -3)%Q /\ (-2 <= z)%Q)
      /\ ~ (((-3 <= z)%Q /\ (z < -2)%Q) /\ (-2 <= z)%Q))
  /\
  (forall (T1 : Type) (transform1 : features -> res T1) (predict1 : T1 -> res Q)
          (T2 : Type) (transform2 : features -> res T2) (predict2 : T2 -> res Q)
          (data : row) (p1 p2 : prediction),
      predict_stunting T1 transform1 predict1 data = Ok p1 ->
      predict_stunting T2 transform2 predict2 data = Ok p2 ->
      (who_classification p1, stunting_prediction p1)
      = who_classify (height_for_age_z_score p1)
      /\ who_classification p1 = who_classification p2
      /\ stunting_prediction p1 = stunting_prediction p2).
Proof.
  split.
  - intro z. repeat split.
    + apply who_classify_severe.
    + intros [H1 H2]. now apply who_classify_stunted.
    + apply who_classify_normal.
    + destruct (Qlt_le_dec z (-3)) as [H|H]; [now left|].
      destruct (Qlt_le_dec z (-2)) as [H'|H']; [right; left; now split|].
      right; right; exact H'.
    + intros [H1 [H2 _]]. lra.
    + intros [H1 H2]. lra.
    + intros [[_ H1] H2]. lra.
  - intros T1 tr1 pr1 T2 tr2 pr2 data p1 p2 H1 H2.
    apply predict_stunting_fields in H1. destruct H1 as (Hz1 & Hc1 & _).
    apply predict_stunting_fields in H2. destruct H2 as (Hz2 & Hc2 & _).
    split; [exact Hc1|].
    rewrite Hz1 in Hz2. injection Hz2 as Hz.
    rewrite <- Hz in Hc2. rewrite <- Hc2 in Hc1.
    injection Hc1 as Ha Hb. now split.
Qed.

Lemma C1_classification_witness :
  who_classify (-3.5) = verdict SeverelyStunted true
  /\ who_classify (-2.5) = verdict Stunted true
  /\ who_classify (-1.5) = verdict Normal false
  /\ exists p1 p2,
      predict_stunting features accept_all constant_model example_stunting
      = Ok p1
      /\ predict_stunting features reject_non_finite
                          (fun _ => Ok 0.125%Q) example_stunting
         = Ok p2
      /\ who_classification p1 = who_classification p2.
Proof.
  split.
  { apply (proj1 (proj1 C1_classification_by_z_score_alone (-3.5)%Q)).
    reflexivity. }
  split.
  { apply (proj1 (proj2 (proj1 C1_classification_by_z_score_alone (-2.5)%Q))).
    split; [discriminate | reflexivity]. }
  split.
  { apply (proj1 (proj2 (proj2
             (proj1 C1_classification_by_z_score_alone (-1.5)%Q)))).
    discriminate. }
  eexists. eexists.
  split; [reflexivity|]. split; [reflexivity|].
  apply (proj2 C1_classification_by_z_score_alone
               features accept_all constant_model
               features reject_non_finite (fun _ => Ok 0.125%Q)
               example_stunting); reflexivity.
Defined.

(** C2 (as amended).  At the boundary inputs the decision rule returns:
    z = -3.0 -> Stunted (the severe class needs z < -3); z = -2.0 -> Normal
    (the stunted class needs z < -2); z = -1.999 -> Normal. *)
Theorem C2_boundary_values :
  who_classify (-3.0) = verdict Stunted true
  /\ who_classify (-2.0) = verdict Normal false
  /\ who_classify (-1.999) = verdict Normal false.
Proof. repeat split. Qed.

(** C2 as stated (z = -3.0 -> SeverelyStunted, z = -2.0 -> Stunted,
    z = -1.999 -> Normal) does not hold of the decision rule. *)
Lemma C2_boundary_counterexample :
  ~ (who_classify (-3.0) = verdict SeverelyStunted true
     /\ who_classify (-2.0) = verdict Stunted true
     /\ who_classify (-1.999) = verdict Normal false).
Proof. intros [H _]. vm_compute in H. discriminate H. Qed.

(* ===================================================================== *)
(** ** Claims about the z-score *)
(* ===================================================================== *)

(** C3.  For every height, every age in [0, 60] and every sex, the z-score is
    exactly (height - median) / sd for the (median, sd) of the reference
    lookup, and it is not clamped: every value is the z-score of some height.
    For sex M, age 12, height 75.0 the reference is (76.0, 2.8), the z-score
    is (75.0 - 76.0) / 2.8, about -0.357, and the class is Normal with the
    stunting flag off. *)
Theorem C3_z_score_formula :
  (forall r : row,
      0 <= Age r <= 60 ->
      exists median sd,
        get_height_for_age_reference (Age r) (Sex r) = Ok (median, sd)
        /\ calculate_height_for_age_z r
           = Ok ((Body_Length r - median) / sd)%Q
        /\ forall t : Q, exists h z,
            calculate_height_for_age_z (with_body_length r h) = Ok z
            /\ (z == t)%Q)
  /\ get_height_for_age_reference 12 "M" = Ok (76.0, 2.8)%Q
  /\ calculate_height_for_age_z example_normal = Ok ((75.0 - 76.0) / 2.8)%Q
  /\ (-0.3572 < (75.0 - 76.0) / 2.8)%Q /\ ((75.0 - 76.0) / 2.8 < -0.3571)%Q
  /\ who_classify ((75.0 - 76.0) / 2.8) = verdict Normal false
  /\ forall (T : Type) (transform : features -> res T) (predict : T -> res Q)
            (p : prediction),
      predict_stunting T transform predict example_normal = Ok p ->
      (who_classification p, stunting_prediction p) = verdict Normal false.
Proof.
  split.
  - intros r Ha.
    destruct (z_score_in_range r Ha) as (m & sd & Hg & Hsd & Hz).
    exists m, sd. split; [exact Hg|]. split; [exact Hz|].
    intro t. exists (m + t * sd)%Q.
    destruct (z_score_in_range (with_body_length r (m + t * sd)%Q) Ha)
      as (m' & sd' & Hg' & Hsd' & Hz').
    cbn [with_body_length Age Sex Body_Length] in Hg', Hz'.
    rewrite Hg in Hg'. injection Hg' as <- <-.
    eexists. split; [exact Hz'|].
    field. lra.
  - repeat split; try discriminate.
    intros T transform predict p Hp.
    apply predict_stunting_fields in Hp. destruct Hp as (Hz & Hc & _).
    change (calculate_height_for_age_z example_normal)
      with (@Ok Q ((75.0 - 76.0) / 2.8)%Q) in Hz.
    injection Hz as Hz. rewrite <- Hz in Hc. exact Hc.
Qed.

Lemma C3_z_score_witness :
  exists median sd,
    get_height_for_age_reference 12 "M" = Ok (median, sd)
    /\ calculate_height_for_age_z example_normal
       = Ok ((75.0 - median) / sd)%Q.
Proof.
  destruct (proj1 C3_z_score_formula example_normal)
    as (m & sd & Hg & Hz & _).
  - simpl. lia.
  - exists m, sd. split; [exact Hg | exact Hz].
Defined.

(** C4 (as amended).  For sex F at the anchor age 24 the reference is median
    86.4 and SD 3.4; body length 79.0 gives z = (79.0 - 86.4) / 3.4, about
    -2.18, class Stunted with the stunting flag on; body length 70.0 gives
    z = (70.0 - 86.4) / 3.4, about -4.82, class SeverelyStunted. *)
Theorem C4_female_24_months :
  get_height_for_age_reference 24 "F" = Ok (86.4, 3.4)%Q
  /\ calculate_height_for_age_z example_stunting
     = Ok ((79.0 - 86.4) / 3.4)%Q
  /\ (-2.18 < (79.0 - 86.4) / 3.4)%Q /\ ((79.0 - 86.4) / 3.4 < -2.17)%Q
  /\ who_classify ((79.0 - 86.4) / 3.4) = verdict Stunted true
  /\ calculate_height_for_age_z (with_body_length example_stunting 70.0)
     = Ok ((70.0 - 86.4) / 3.4)%Q
  /\ (-4.83 < (70.0 - 86.4) / 3.4)%Q /\ ((70.0 - 86.4) / 3.4 < -4.82)%Q
  /\ who_classify ((70.0 - 86.4) / 3.4) = verdict SeverelyStunted true.
Proof. repeat split. Qed.

(** C4 as stated (SD 2.5 for sex F at 24 months, hence z = -2.96 and
    z = -6.56) does not hold: the tabulated SD is 3.4. *)
Lemma C4_female_24_months_counterexample :
  ~ (exists median sd z,
        get_height_for_age_reference 24 "F" = Ok (median, sd)
        /\ (median == 86.4)%Q /\ (sd == 2.5)%Q
        /\ calculate_height_for_age_z example_stunting = Ok z
        /\ (z == -2.96)%Q).
Proof.
  intros (m & sd & z & Hg & _ & Hsd & _).
  change (get_height_for_age_reference 24 "F")
    with (@Ok (Q * Q) (86.4, 3.4)%Q) in Hg.
  injection Hg as <- <-. revert Hsd. unfold Qeq. simpl. discriminate.
Qed.

(* ===================================================================== *)
(** ** Claims about the reference lookup *)
(* ===================================================================== *)

(** C5.  For every anchor age A in {0,3,6,9,12,18,24,36,48,60} and every sex,
    the lookup takes the direct return and yields exactly the pair tabulated
    for A and that sex (the M columns for 'M', the F columns otherwise); no
    interpolation is applied. *)
Theorem C5_anchor_ages_exact (A : Z) (sex : string) :
  In A [0; 3; 6; 9; 12; 18; 24; 36; 48; 60] ->
  exists mM sdM mF sdF,
    In (A, (mM, sdM, mF, sdF)) references
    /\ select_branch A = Ok (SingleAnchor A)
    /\ get_height_for_age_reference A sex
       = Ok (if String.eqb sex "M" then (mM, sdM) else (mF, sdF)).
Proof.
  intro HA.
  assert (Hin : In A ages) by exact HA.
  pose proof (select_branch_anchor A Hin) as Hs.
  assert (He : exists mM sdM mF sdF, In (A, (mM, sdM, mF, sdF)) references).
  { simpl in HA.
    repeat (destruct HA as [<-|HA];
            [do 4 eexists; simpl; auto 12; fail|]).
    destruct HA. }
  destruct He as (mM & sdM & mF & sdF & He).
  exists mM, sdM, mF, sdF. split; [exact He|]. split; [exact Hs|].
  unfold get_height_for_age_reference. rewrite Hs. cbn [bind].
  now apply anchor_value_entry.
Qed.

Lemma C5_anchor_ages_witness :
  exists mM sdM mF sdF,
    In (24, (mM, sdM, mF, sdF)) references
    /\ select_branch 24 = Ok (SingleAnchor 24)
    /\ get_height_for_age_reference 24 "F" = Ok (mF, sdF).
Proof.
  apply (C5_anchor_ages_exact 24 "F"). simpl. tauto.
Defined.

(** C6.  For every age strictly between two adjacent anchor ages lowAge and
    highAge and every sex, the lookup interpolates the median and the SD
    independently, value = valueLow + w * (valueHigh - valueLow), with the
    weight w = (age - lowAge) / (highAge - lowAge); the weight lies in [0,1]
    and the interpolated median lies between the two anchors' medians. *)
Theorem C6_linear_interpolation (lowAge highAge age_months : Z) (sex : string) :
  In (lowAge, highAge) adjacent_pairs ->
  lowAge < age_months < highAge ->
  exists mLow sdLow mHigh sdHigh,
    anchor_value lowAge sex = Ok (mLow, sdLow)
    /\ anchor_value highAge sex = Ok (mHigh, sdHigh)
    /\ get_height_for_age_reference age_months sex
       = Ok (lerp (weight_between age_months lowAge highAge) mLow mHigh,
             lerp (weight_between age_months lowAge highAge) sdLow sdHigh)
    /\ (0 <= weight_between age_months lowAge highAge)%Q
    /\ (weight_between age_months lowAge highAge <= 1)%Q
    /\ (Qmin mLow mHigh
        <= lerp (weight_between age_months lowAge highAge) mLow mHigh)%Q
    /\ (lerp (weight_between age_months lowAge highAge) mLow mHigh
        <= Qmax mLow mHigh)%Q.
Proof.
  intros Hp Hb.
  destruct (adjacent_pairs_tabulated lowAge highAge sex Hp)
    as (Hlt & _ & _ & mLo & sdLo & mHi & sdHi & Hlo & Hhi).
  exists mLo, sdLo, mHi, sdHi.
  destruct (weight_between_bounds age_months lowAge highAge Hb) as [W0 W1].
  assert (W0' : (0 <= weight_between age_months lowAge highAge)%Q) by lra.
  assert (W1' : (weight_between age_months lowAge highAge <= 1)%Q) by lra.
  destruct (lerp_between _ mLo mHi W0' W1') as [Hmin Hmax].
  repeat (split; [assumption|]).
  split; [|repeat split; assumption].
  unfold get_height_for_age_reference.
  rewrite (select_branch_between lowAge highAge age_months Hp Hb). cbn [bind].
  apply interpolate_lerp; [lia | assumption | assumption].
Qed.

Lemma C6_linear_interpolation_witness :
  exists mLow sdLow mHigh sdHigh,
    anchor_value 12 "M" = Ok (mLow, sdLow)
    /\ anchor_value 18 "M" = Ok (mHigh, sdHigh)
    /\ get_height_for_age_reference 13 "M"
       = Ok (lerp (weight_between 13 12 18) mLow mHigh,
             lerp (weight_between 13 12 18) sdLow sdHigh)
    /\ (0 <= weight_between 13 12 18)%Q
    /\ (weight_between 13 12 18 <= 1)%Q
    /\ (Qmin mLow mHigh <= lerp (weight_between 13 12 18) mLow mHigh)%Q
    /\ (lerp (weight_between 13 12 18) mLow mHigh <= Qmax mLow mHigh)%Q.
Proof.
  apply (C6_linear_interpolation 12 18 13 "M").
  - simpl. tauto.
  - lia.
Defined.

(** C9.  Every tabulated SD is at least 1.9, and for every age in [0, 60] and
    every sex the SD returned by the lookup is at least 1.9, hence strictly
    positive, so the division of the z-score does not divide by zero: the
    z-score function returns a value. *)
Theorem C9_sd_strictly_positive :
  (forall (A : Z) (sex : string) (m sd : Q),
      anchor_value A sex = Ok (m, sd) -> (1.9 <= sd)%Q)
  /\
  (forall (age_months : Z) (sex : string),
      0 <= age_months <= 60 ->
      exists median sd,
        get_height_for_age_reference age_months sex = Ok (median, sd)
        /\ (1.9 <= sd)%Q /\ (0 < sd)%Q /\ ~ (sd == 0)%Q)
  /\
  (forall r : row,
      0 <= Age r <= 60 -> is_ok (calculate_height_for_age_z r) = true).
Proof.
  split; [exact anchor_value_sd|]. split.
  - intros a sex Ha.
    destruct (reference_sd_in_range a sex Ha) as (m & sd & Hg & Hsd).
    exists m, sd. repeat split; try assumption; lra.
  - intros r Ha.
    destruct (z_score_in_range r Ha) as (m & sd & _ & _ & Hz).
    now rewrite Hz.
Qed.

Lemma C9_sd_strictly_positive_witness :
  exists median sd,
    get_height_for_age_reference 13 "F" = Ok (median, sd)
    /\ (1.9 <= sd)%Q /\ (0 < sd)%Q /\ ~ (sd == 0)%Q.
Proof.
  apply (proj1 (proj2 C9_sd_strictly_positive) 13 "F"%string). lia.
Defined.

(** C10.  For every age in [0, 60] the closest anchor is at most 6 months
    away, so neither the more-than-12-months fallback nor the edge branch is
    taken: the direct return is reached only at an anchor age, and every
    non-anchor age is resolved by interpolation between two adjacent anchors
    lowAge <= age <= highAge. *)
Theorem C10_in_range_ages_are_bracketed (age_months : Z) :
  0 <= age_months <= 60 ->
  (exists closest_age,
      closest_anchor age_months = Ok closest_age
      /\ In closest_age ages
      /\ Z.abs (closest_age - age_months) <= 6)
  /\ (forall c, select_branch age_months <> Ok (EdgeAnchor c))
  /\ (forall c, select_branch age_months = Ok (SingleAnchor c) ->
                c = age_months /\ In age_months ages)
  /\ (~ In age_months ages ->
      exists lowAge highAge,
        In (lowAge, highAge) adjacent_pairs
        /\ lowAge <= age_months <= highAge
        /\ select_branch age_months = Ok (Interpolate lowAge highAge)).
Proof.
  intro Ha. split; [exact (closest_anchor_within_6 age_months Ha)|].
  destruct (months_cover age_months Ha) as [Hin|(lo & hi & Hp & Hb)].
  - pose proof (select_branch_anchor age_months Hin) as Hs.
    rewrite Hs. repeat split.
    + discriminate.
    + congruence.
    + exact Hin.
    + intro Hn. contradiction.
  - pose proof (select_branch_between lo hi age_months Hp Hb) as Hs.
    rewrite Hs. repeat split; try discriminate.
    intros _. exists lo, hi. repeat split; try assumption; lia.
Qed.

Lemma C10_in_range_witness :
  (exists closest_age,
      closest_anchor 30 = Ok closest_age
      /\ In closest_age ages
      /\ Z.abs (closest_age - 30) <= 6)
  /\ (forall c, select_branch 30 <> Ok (EdgeAnchor c))
  /\ (forall c, select_branch 30 = Ok (SingleAnchor c) ->
                c = 30 /\ In 30 ages)
  /\ (~ In 30 ages ->
      exists lowAge highAge,
        In (lowAge, highAge) adjacent_pairs
        /\ lowAge <= 30 <= highAge
        /\ select_branch 30 = Ok (Interpolate lowAge highAge)).
Proof.
  apply (C10_in_range_ages_are_bracketed 30). lia.
Defined.

(* ===================================================================== *)
(** ** Claims about invalid input and batches *)
(* ===================================================================== *)

Lemma body_mass_index_zero_length (r : row) :
  (Body_Length r == 0)%Q ->
  body_mass_index r
  = if Qeq_bool (Body_Weight r) 0 then NaN
    else if Py.flt 0 (Body_Weight r) then PosInf else NegInf.
Proof.
  intro H. unfold body_mass_index, Np.truediv.
  assert (E : Qeq_bool ((Body_Length r / 100) ^ 2) 0 = true).
  { apply Qeq_bool_iff. rewrite H. reflexivity. }
  now rewrite E.
Qed.

(** An exception of [predict_stunting] comes from the z-score, from the
    preprocessor or from the model. *)
Lemma predict_stunting_raise
      (T : Type) (transform : features -> res T) (predict : T -> res Q)
      (data : row) (e : exn) :
  predict_stunting T transform predict data = Raise e ->
  calculate_height_for_age_z data = Raise e
  \/ exists z,
      calculate_height_for_age_z data = Ok z
      /\ (transform (mkFeatures data (body_mass_index data) z) = Raise e
          \/ exists t,
              transform (mkFeatures data (body_mass_index data) z) = Ok t
              /\ predict t = Raise e).
Proof.
  unfold predict_stunting.
  destruct (calculate_height_for_age_z data) as [z|e0]; cbn [bind].
  - destruct (who_classify z) as [c s]. intro H. right. exists z.
    split; [reflexivity|].
    destruct (transform _) as [t|e1]; cbn [bind] in H.
    + right. exists t. split; [reflexivity|].
      destruct (predict t) as [q|e2]; cbn [bind] in H;
        [discriminate H | congruence].
    + left. congruence.
  - intro H. left. congruence.
Qed.

(** C7 (as amended).  A row with body length 0 is not validated and no
    InvalidInputError exists: the BMI division yields an infinite value (NaN
    when the body weight is 0 as well), the z-score is the finite value
    (0 - median) / sd, and the pipeline raises only what the preprocessor or
    the model raises; when they accept the row, the prediction carries the
    non-finite BMI. *)
Theorem C7_zero_body_length_not_rejected (r : row) :
  (Body_Length r == 0)%Q ->
  0 <= Age r <= 60 ->
  Np.isfinite (body_mass_index r) = false
  /\ ((0 < Body_Weight r)%Q -> body_mass_index r = PosInf)
  /\ ((Body_Weight r == 0)%Q -> body_mass_index r = NaN)
  /\ (exists median sd z,
         get_height_for_age_reference (Age r) (Sex r) = Ok (median, sd)
         /\ calculate_height_for_age_z r = Ok z
         /\ (z == (0 - median) / sd)%Q)
  /\ forall (T : Type) (transform : features -> res T) (predict : T -> res Q),
      (forall p, predict_stunting T transform predict r = Ok p ->
                 Np.isfinite (bmi p) = false)
      /\ (forall e, predict_stunting T transform predict r = Raise e ->
                    exists z,
                      calculate_height_for_age_z r = Ok z
                      /\ (transform (mkFeatures r (body_mass_index r) z)
                          = Raise e
                          \/ exists t,
                              transform (mkFeatures r (body_mass_index r) z)
                              = Ok t
                              /\ predict t = Raise e)).
Proof.
  intros Hl Ha.
  pose proof (body_mass_index_zero_length r Hl) as Hb.
  destruct (z_score_in_range r Ha) as (m & sd & Hg & Hsd & Hz).
  assert (Hfin : Np.isfinite (body_mass_index r) = false).
  { rewrite Hb. destruct (Qeq_bool (Body_Weight r) 0); [reflexivity|].
    destruct (Py.flt 0 (Body_Weight r)); reflexivity. }
  split; [exact Hfin|]. split; [|split; [|split]].
  - intro Hw. rewrite Hb.
    destruct (Qeq_bool (Body_Weight r) 0) eqn:E.
    + apply Qeq_bool_iff in E. lra.
    + now rewrite (proj2 (flt_true_iff 0 (Body_Weight r)) Hw).
  - intro Hw. rewrite Hb.
    now rewrite (proj2 (Qeq_bool_iff (Body_Weight r) 0) Hw).
  - exists m, sd. eexists. split; [exact Hg|]. split; [exact Hz|].
    rewrite Hl. reflexivity.
  - intros T transform predict. split.
    + intros p Hp. apply predict_stunting_fields in Hp.
      destruct Hp as (_ & _ & Hbmi). now rewrite Hbmi.
    + intros e He. apply predict_stunting_raise in He.
      destruct He as [He|He]; [rewrite Hz in He; discriminate He|exact He].
Qed.

Lemma C7_zero_body_length_witness :
  Np.isfinite (body_mass_index (with_body_length example_normal 0)) = false
  /\ exists p,
      predict_stunting features accept_all constant_model
                       (with_body_length example_normal 0) = Ok p
      /\ bmi p = PosInf.
Proof.
  split.
  - apply (C7_zero_body_length_not_rejected
             (with_body_length example_normal 0)).
    + reflexivity.
    + simpl. lia.
  - eexists. split; reflexivity.
Defined.

(** C7 as stated does not hold, in either part: for rows with body length 0
    it is not the case that the BMI computation always returns a finite
    value, nor that the pipeline always raises. *)
Lemma C7_zero_body_length_counterexample :
  ~ (forall r : row,
        (Body_Length r == 0)%Q -> Np.isfinite (body_mass_index r) = true)
  /\ ~ (forall r : row,
           (Body_Length r == 0)%Q ->
           forall (T : Type) (transform : features -> res T)
                  (predict : T -> res Q),
             is_ok (predict_stunting T transform predict r) = false).
Proof.
  split; intro H.
  - specialize (H (with_body_length example_normal 0) (Qeq_refl 0)).
    vm_compute in H. discriminate H.
  - specialize (H (with_body_length example_normal 0) (Qeq_refl 0)
                  features accept_all constant_model).
    vm_compute in H. discriminate H.
Qed.

(** The accumulator of the batch loop is a prefix of its result. *)
Lemma batch_loop_acc
      (T : Type) (transform : features -> res T) (predict : T -> res Q)
      (rows : list row) :
  forall acc,
    batch_loop T transform predict rows acc
    = (rs <- batch_loop T transform predict rows [] ;; Ok (acc ++ rs)).
Proof.
  induction rows as [|r rest IH]; intro acc; simpl.
  - now rewrite app_nil_r.
  - destruct (predict_stunting T transform predict r) as [x|e]; simpl;
      [|reflexivity].
    rewrite (IH (acc ++ [x])), (IH [x]).
    destruct (batch_loop T transform predict rest []) as [rs|e]; simpl;
      [|reflexivity].
    now rewrite <- app_assoc.
Qed.

Lemma batch_loop_cons
      (T : Type) (transform : features -> res T) (predict : T -> res Q)
      (r : row) (rest : list row) :
  batch_loop T transform predict (r :: rest) []
  = (x <- predict_stunting T transform predict r ;;
     rs <- batch_loop T transform predict rest [] ;;
     Ok (x :: rs)).
Proof.
  simpl. destruct (predict_stunting T transform predict r) as [x|e]; simpl;
    [|reflexivity].
  now rewrite (batch_loop_acc T transform predict rest [x]).
Qed.

Lemma batch_loop_ok_iff
      (T : Type) (transform : features -> res T) (predict : T -> res Q)
      (rows : list row) :
  forall results,
    batch_loop T transform predict rows [] = Ok results
    <-> Forall2 (fun r p => predict_stunting T transform predict r = Ok p)
                rows results.
Proof.
  induction rows as [|r rest IH]; intro results.
  - simpl. split.
    + intro H. injection H as <-. constructor.
    + intro H. inversion H. reflexivity.
  - rewrite batch_loop_cons. split.
    + destruct (predict_stunting T transform predict r) as [x|e] eqn:Ex;
        simpl; [|discriminate].
      destruct (batch_loop T transform predict rest []) as [rs|e] eqn:Er;
        simpl; [|discriminate].
      intro H. injection H as <-. constructor; [exact Ex|].
      now apply IH.
    + intro H. inversion H as [|r' p rest' ps Hp Hrest]; subst.
      rewrite Hp. simpl. apply IH in Hrest. now rewrite Hrest.
Qed.

Lemma batch_loop_first_failure
      (T : Type) (transform : features -> res T) (predict : T -> res Q)
      (done : list row) (r : row) (rest : list row) (e : exn) :
  Forall (fun r' => is_ok (predict_stunting T transform predict r') = true)
         done ->
  predict_stunting T transform predict r = Raise e ->
  batch_loop T transform predict (done ++ r :: rest) [] = Raise e.
Proof.
  intros Hdone Hr. induction Hdone as [|d done Hd _ IH].
  - simpl. now rewrite Hr.
  - change ((d :: done) ++ r :: rest) with (d :: (done ++ r :: rest)).
    rewrite batch_loop_cons, IH.
    destruct (predict_stunting T transform predict d); [reflexivity|].
    discriminate Hd.
Qed.

(** C8 (as amended).  When every row of a batch is scored, the batch yields
    one prediction per row, in input order (so as many as the rows).  When a
    row raises, the handler around the whole loop takes over: the batch
    yields the exception of the first failing row and no sequence at all; the
    rows after it are not processed and there are no per-row error
    entries. *)
Theorem C8_batch_is_all_or_nothing
        (T : Type) (transform : features -> res T) (predict : T -> res Q) :
  (forall records results,
      predict_batch T transform predict records = Processed results
      <-> Forall2 (fun r p => predict_stunting T transform predict r = Ok p)
                  records results)
  /\ (forall records results,
         predict_batch T transform predict records = Processed results ->
         List.length results = List.length records)
  /\ (forall done r rest e,
         Forall (fun r' =>
                   is_ok (predict_stunting T transform predict r') = true)
                done ->
         predict_stunting T transform predict r = Raise e ->
         predict_batch T transform predict (done ++ r :: rest)
         = ErrorShown e).
Proof.
  assert (Hiff : forall records results,
             predict_batch T transform predict records = Processed results
             <-> Forall2
                   (fun r p => predict_stunting T transform predict r = Ok p)
                   records results).
  { intros records results. rewrite <- batch_loop_ok_iff.
    unfold predict_batch.
    destruct (batch_loop T transform predict records []) as [rs|e]; split;
      intro H; try discriminate H; injection H as <-; reflexivity. }
  split; [exact Hiff|]. split.
  - intros records results H. apply Hiff in H.
    symmetry. exact (Forall2_length H).
  - intros done r rest e Hdone Hr. unfold predict_batch.
    now rewrite (batch_loop_first_failure T transform predict done r rest e).
Qed.

Lemma C8_batch_witness :
  (exists results,
      predict_batch features reject_non_finite constant_model
                    [example_normal; example_stunting] = Processed results
      /\ List.length results = 2%nat)
  /\ exists e,
      predict_batch features reject_non_finite constant_model
                    [example_normal; with_body_length example_normal 0;
                     example_stunting]
      = ErrorShown e.
Proof.
  split.
  - eexists. split; [reflexivity|].
    apply (proj1 (proj2 (C8_batch_is_all_or_nothing
                           features reject_non_finite constant_model))
                 [example_normal; example_stunting]).
    reflexivity.
  - eexists.
    apply (proj2 (proj2 (C8_batch_is_all_or_nothing
                           features reject_non_finite constant_model))
                 [example_normal] (with_body_length example_normal 0)
                 [example_stunting]).
    + constructor; [reflexivity | constructor].
    + reflexivity.
Defined.

(** C8 as stated (every batch yields a sequence as long as the input, a
    failing row does not stop the others) does not hold: with a preprocessor
    that rejects non-finite input, a row of body length 0 ends the batch. *)
Lemma C8_batch_counterexample :
  ~ (forall records : list row,
        exists results,
          predict_batch features reject_non_finite constant_model records
          = Processed results
          /\ List.length results = List.length records).
Proof.
  intro H.
  destruct (H [with_body_length example_normal 0; example_stunting])
    as (results & Hr & _).
  vm_compute in Hr. discriminate Hr.
Qed.

(* ===================================================================== *)
(** ** Further properties of the reference lookup *)
(* ===================================================================== *)

Lemma interpolate_column (a lo hi : Z) (sex : string) :
  interpolate a lo hi sex = interpolate a lo hi (column_of sex).
Proof.
  unfold interpolate. now rewrite !(anchor_value_column _ sex).
Qed.

Lemma reference_column (a : Z) (sex : string) :
  get_height_for_age_reference a sex
  = get_height_for_age_reference a (column_of sex).
Proof.
  unfold get_height_for_age_reference.
  destruct (select_branch a) as [[lo hi|c|c]|e]; simpl;
    auto using anchor_value_column, interpolate_column.
Qed.

Lemma reference_at_anchor (A : Z) (sex : string) :
  In A ages -> get_height_for_age_reference A sex = anchor_value A sex.
Proof.
  intro H. unfold get_height_for_age_reference.
  now rewrite (select_branch_anchor A H).
Qed.

Lemma reference_below (a : Z) (sex : string) :
  a < 0 ->
  get_height_for_age_reference a sex = get_height_for_age_reference 0 sex.
Proof.
  intro Ha. rewrite (reference_at_anchor 0) by (vm_compute; tauto).
  unfold get_height_for_age_reference.
  rewrite (select_branch_below a Ha). cbn [bind].
  now destruct (Z.abs (0 - a) <=? 12).
Qed.

Lemma reference_above (a : Z) (sex : string) :
  60 < a ->
  get_height_for_age_reference a sex = get_height_for_age_reference 60 sex.
Proof.
  intro Ha. rewrite (reference_at_anchor 60) by (vm_compute; tauto).
  unfold get_height_for_age_reference.
  rewrite (select_branch_above a Ha). cbn [bind].
  now destruct (Z.abs (60 - a) <=? 12).
Qed.

Lemma reference_clamp (a : Z) (sex : string) :
  get_height_for_age_reference a sex
  = get_height_for_age_reference (clamp_age a) sex.
Proof.
  unfold clamp_age.
  assert (C : a < 0 \/ 0 <= a <= 60 \/ 60 < a) by lia.
  destruct C as [C|[C|C]].
  - rewrite (reference_below a sex C). f_equal. lia.
  - f_equal. lia.
  - rewrite (reference_above a sex C). f_equal. lia.
Qed.

(** X1.  Outside the table the lookup does not extrapolate: an age below 0
    gets the values of the anchor 0 and an age above 60 those of the anchor
    60, through the edge branch up to 12 months away and through the direct
    return beyond. *)
Theorem X1_no_extrapolation (age_months : Z) (sex : string) :
  (age_months < 0 ->
   select_branch age_months
   = Ok (if Z.abs (0 - age_months) <=? 12 then EdgeAnchor 0
         else SingleAnchor 0)
   /\ get_height_for_age_reference age_months sex = anchor_value 0 sex)
  /\ (60 < age_months ->
      select_branch age_months
      = Ok (if Z.abs (60 - age_months) <=? 12 then EdgeAnchor 60
            else SingleAnchor 60)
      /\ get_height_for_age_reference age_months sex = anchor_value 60 sex).
Proof.
  split; intro Ha.
  - split; [exact (select_branch_below _ Ha)|].
    rewrite (reference_below _ sex Ha).
    apply reference_at_anchor. vm_compute. tauto.
  - split; [exact (select_branch_above _ Ha)|].
    rewrite (reference_above _ sex Ha).
    apply reference_at_anchor. vm_compute. tauto.
Qed.

Lemma X1_no_extrapolation_witness :
  (select_branch (-5) = Ok (EdgeAnchor 0)
   /\ get_height_for_age_reference (-5) "F" = anchor_value 0 "F")
  /\ (select_branch 80 = Ok (SingleAnchor 60)
      /\ get_height_for_age_reference 80 "M" = anchor_value 60 "M").
Proof.
  split.
  - apply (proj1 (X1_no_extrapolation (-5) "F")). lia.
  - apply (proj2 (X1_no_extrapolation 80 "M")). lia.
Defined.

(** X2.  The lookup and the z-score never raise: for every integer age and
    every value of the sex the lookup returns a pair whose SD is at least
    1.9, so no key, index or zero-division error can occur, and every row
    has a z-score. *)
Theorem X2_lookup_and_z_score_never_raise :
  (forall (age_months : Z) (sex : string),
      exists median sd,
        get_height_for_age_reference age_months sex = Ok (median, sd)
        /\ (1.9 <= sd)%Q)
  /\ (forall r : row,
         exists median sd,
           get_height_for_age_reference (Age r) (Sex r) = Ok (median, sd)
           /\ calculate_height_for_age_z r
              = Ok ((Body_Length r - median) / sd)%Q).
Proof.
  split; [exact reference_total|].
  intro r. destruct (reference_total (Age r) (Sex r)) as (m & sd & Hg & Hsd).
  exists m, sd. split; [exact Hg|].
  unfold calculate_height_for_age_z. rewrite Hg. cbn [bind].
  now rewrite fdiv_nonzero by lra.
Qed.

(** X3.  Only the value 'M' selects the male columns: every other value of
    the sex (lower-case 'm', 'Male', the empty string, ...) is looked up as
    'F'. *)
Theorem X3_sex_other_than_M_is_female (age_months : Z) (sex : string) :
  sex <> "M"%string ->
  get_height_for_age_reference age_months sex
  = get_height_for_age_reference age_months "F".
Proof.
  intro H. rewrite reference_column. unfold column_of.
  destruct (String.eqb_spec sex "M"); [contradiction|reflexivity].
Qed.

Lemma X3_sex_witness :
  get_height_for_age_reference 13 "m"
  = get_height_for_age_reference 13 "F".
Proof.
  apply (X3_sex_other_than_M_is_female 13 "m"). discriminate.
Defined.

Lemma lerp_0 (w x y : Q) : (w == 0)%Q -> (lerp w x y == x)%Q.
Proof. intro H. unfold lerp. rewrite H. ring. Qed.

Lemma lerp_1 (w x y : Q) : (w == 1)%Q -> (lerp w x y == y)%Q.
Proof. intro H. unfold lerp. rewrite H. ring. Qed.

Lemma weight_between_low (lo hi : Z) : (weight_between lo lo hi == 0)%Q.
Proof.
  unfold weight_between. rewrite Z.sub_diag. unfold Qdiv.
  now rewrite Qmult_0_l.
Qed.

Lemma weight_between_high (lo hi : Z) :
  lo < hi -> (weight_between hi lo hi == 1)%Q.
Proof.
  intro H. unfold weight_between. apply Qmult_inv_r.
  change 0%Q with (inject_Z 0). rewrite inject_Z_injective. lia.
Qed.

(** X4.  On the whole closed interval between two adjacent anchors,
    end points included, the lookup equals the linear interpolation between
    them: the function is the piecewise-linear curve through the table, and
    which of two equally close anchors counts as the closest does not change
    a result. *)
Theorem X4_piecewise_linear (lowAge highAge age_months : Z) (sex : string) :
  In (lowAge, highAge) adjacent_pairs ->
  lowAge <= age_months <= highAge ->
  exists mLow sdLow mHigh sdHigh median sd,
    anchor_value lowAge sex = Ok (mLow, sdLow)
    /\ anchor_value highAge sex = Ok (mHigh, sdHigh)
    /\ get_height_for_age_reference age_months sex = Ok (median, sd)
    /\ (median == lerp (weight_between age_months lowAge highAge)
                       mLow mHigh)%Q
    /\ (sd == lerp (weight_between age_months lowAge highAge)
                   sdLow sdHigh)%Q.
Proof.
  intros Hp Hb.
  destruct (adjacent_pairs_tabulated lowAge highAge sex Hp)
    as (Hlt & Hinlo & Hinhi & mLo & sdLo & mHi & sdHi & Hlo & Hhi).
  exists mLo, sdLo, mHi, sdHi.
  assert (C : age_months = lowAge \/ age_months = highAge
              \/ lowAge < age_months < highAge) by lia.
  destruct C as [->|[->|C]].
  - exists mLo, sdLo. repeat (split; [assumption|]).
    split; [now rewrite reference_at_anchor|].
    split; symmetry; apply lerp_0, weight_between_low.
  - exists mHi, sdHi. repeat (split; [assumption|]).
    split; [now rewrite reference_at_anchor|].
    split; symmetry; apply lerp_1, weight_between_high, Hlt.
  - eexists _, _. repeat (split; [assumption|]).
    split; [|split; reflexivity].
    unfold get_height_for_age_reference.
    rewrite (select_branch_between lowAge highAge age_months Hp C).
    cbn [bind]. apply interpolate_lerp; [lia | assumption | assumption].
Qed.

Lemma X4_piecewise_linear_witness :
  exists mLow sdLow mHigh sdHigh median sd,
    anchor_value 24 "F" = Ok (mLow, sdLow)
    /\ anchor_value 36 "F" = Ok (mHigh, sdHigh)
    /\ get_height_for_age_reference 36 "F" = Ok (median, sd)
    /\ (median == lerp (weight_between 36 24 36) mLow mHigh)%Q
    /\ (sd == lerp (weight_between 36 24 36) sdLow sdHigh)%Q.
Proof.
  apply (X4_piecewise_linear 24 36 36 "F").
  - simpl. tauto.
  - lia.
Defined.

Lemma pair_leb_spec (x y : res (Q * Q)) :
  pair_leb x y = true <->
  exists m1 sd1 m2 sd2,
    x = Ok (m1, sd1) /\ y = Ok (m2, sd2) /\ (m1 <= m2)%Q /\ (sd1 <= sd2)%Q.
Proof.
  unfold pair_leb. split.
  - destruct x as [[m1 sd1]|e]; [|discriminate].
    destruct y as [[m2 sd2]|e]; [|discriminate].
    rewrite andb_true_iff, !Qle_bool_iff. intros [H1 H2].
    exists m1, sd1, m2, sd2. auto.
  - intros (m1 & sd1 & m2 & sd2 & -> & -> & H1 & H2).
    rewrite andb_true_iff, !Qle_bool_iff. auto.
Qed.

Lemma pair_leb_trans (x y z : res (Q * Q)) :
  pair_leb x y = true -> pair_leb y z = true -> pair_leb x z = true.
Proof.
  rewrite !pair_leb_spec.
  intros (m1 & s1 & m2 & s2 & -> & -> & H1 & H2)
         (m2' & s2' & m3 & s3 & E & -> & H3 & H4).
  injection E as <- <-.
  exists m1, s1, m3, s3. repeat split; try reflexivity; lra.
Qed.

(** One month later, median and SD are not smaller (by evaluation on the
    60 steps of the range, for both columns). *)
Lemma reference_step (a : Z) (sex : string) :
  0 <= a < 60 ->
  pair_leb (get_height_for_age_reference a sex)
           (get_height_for_age_reference (a + 1) sex) = true.
Proof.
  intro Ha. rewrite !(reference_column _ sex).
  assert (Hall :
    forallb (fun a =>
               (60 <=? a)
               || (pair_leb (get_height_for_age_reference a "M")
                            (get_height_for_age_reference (a + 1) "M")
                   && pair_leb (get_height_for_age_reference a "F")
                               (get_height_for_age_reference (a + 1) "F")))
            months = true) by (vm_compute; reflexivity).
  rewrite forallb_forall in Hall.
  specialize (Hall a (months_In a ltac:(lia))).
  destruct (Z.leb_spec 60 a) as [E|_]; [lia|]. cbn [orb] in Hall.
  apply andb_true_iff in Hall. destruct Hall as [HM HF].
  destruct (column_of_cases sex) as [-> | ->]; assumption.
Qed.

Lemma reference_monotone_in_range (sex : string) (n : nat) :
  forall a, 0 <= a -> a + Z.of_nat n <= 60 ->
            pair_leb (get_height_for_age_reference a sex)
                     (get_height_for_age_reference (a + Z.of_nat n) sex)
            = true.
Proof.
  induction n as [|n IH]; intros a Ha Hb.
  - replace (a + Z.of_nat 0) with a by lia.
    destruct (reference_total a sex) as (m & sd & Hg & _).
    rewrite Hg. apply pair_leb_spec. exists m, sd, m, sd.
    repeat split; try reflexivity; apply Qle_refl.
  - apply pair_leb_trans with (get_height_for_age_reference (a + 1) sex).
    + apply reference_step. lia.
    + replace (a + Z.of_nat (S n)) with (a + 1 + Z.of_nat n) by lia.
      apply IH; lia.
Qed.

(** X5.  The reference grows with age: for any two ages a <= b (inside or
    outside the table) and any sex, the median and the SD looked up for a are
    at most those looked up for b. *)
Theorem X5_reference_monotone_in_age (a b : Z) (sex : string) :
  a <= b ->
  exists m1 sd1 m2 sd2,
    get_height_for_age_reference a sex = Ok (m1, sd1)
    /\ get_height_for_age_reference b sex = Ok (m2, sd2)
    /\ (m1 <= m2)%Q /\ (sd1 <= sd2)%Q.
Proof.
  intro Hab. apply pair_leb_spec.
  rewrite (reference_clamp a), (reference_clamp b).
  assert (Ha : 0 <= clamp_age a <= 60) by (unfold clamp_age; lia).
  assert (Hb : clamp_age a <= clamp_age b <= 60) by (unfold clamp_age; lia).
  replace (clamp_age b)
    with (clamp_age a + Z.of_nat (Z.to_nat (clamp_age b - clamp_age a)))
    by lia.
  apply reference_monotone_in_range; lia.
Qed.

Lemma X5_reference_monotone_witness :
  exists m1 sd1 m2 sd2,
    get_height_for_age_reference 7 "F" = Ok (m1, sd1)
    /\ get_height_for_age_reference 41 "F" = Ok (m2, sd2)
    /\ (m1 <= m2)%Q /\ (sd1 <= sd2)%Q.
Proof.
  apply (X5_reference_monotone_in_age 7 41 "F"). lia.
Defined.

Lemma reference_bounds (age_months : Z) (sex : string) :
  exists median sd,
    get_height_for_age_reference age_months sex = Ok (median, sd)
    /\ (49.1 <= median)%Q /\ (median <= 109.1)%Q
    /\ (1.9 <= sd)%Q /\ (sd <= 4.6)%Q.
Proof.
  assert (Lo : pair_leb (get_height_for_age_reference 0 sex)
                        (get_height_for_age_reference (clamp_age age_months)
                                                      sex) = true).
  { replace (clamp_age age_months)
      with (0 + Z.of_nat (Z.to_nat (clamp_age age_months)))
      by (unfold clamp_age; lia).
    apply reference_monotone_in_range; unfold clamp_age; lia. }
  assert (Hc : 0 <= clamp_age age_months <= 60) by (unfold clamp_age; lia).
  pose proof (reference_monotone_in_range
                sex (Z.to_nat (60 - clamp_age age_months))
                (clamp_age age_months)) as Hi.
  replace (clamp_age age_months
           + Z.of_nat (Z.to_nat (60 - clamp_age age_months)))
    with 60 in Hi by lia.
  specialize (Hi ltac:(lia) ltac:(lia)).
  rewrite <- reference_clamp in Lo, Hi.
  rewrite (reference_column 0) in Lo. rewrite (reference_column 60) in Hi.
  apply pair_leb_spec in Lo. apply pair_leb_spec in Hi.
  destruct Lo as (m0 & s0 & m & sd & E0 & Eg & L1 & L2).
  destruct Hi as (m' & sd' & m60 & s60 & Eg' & E60 & H1 & H2).
  rewrite Eg in Eg'. injection Eg' as <- <-.
  exists m, sd. split; [exact Eg|].
  destruct (column_of_cases sex) as [Ec|Ec]; rewrite Ec in E0, E60;
    vm_compute in E0; vm_compute in E60;
    injection E0 as <- <-; injection E60 as <- <-;
    repeat split; lra.
Qed.

(** X6.  Whatever the age and the sex, the looked-up median lies between
    49.1 and 109.1 cm and the SD between 1.9 and 4.6: the extreme entries of
    the table bound every result. *)
Theorem X6_reference_within_table (age_months : Z) (sex : string) :
  exists median sd,
    get_height_for_age_reference age_months sex = Ok (median, sd)
    /\ (49.1 <= median)%Q /\ (median <= 109.1)%Q
    /\ (1.9 <= sd)%Q /\ (sd <= 4.6)%Q.
Proof. exact (reference_bounds age_months sex). Qed.

(* ===================================================================== *)
(** ** Further properties of the z-score and of the prediction *)
(* ===================================================================== *)


Lemma who_classify_severe_iff (z : Q) :
  who_classify z = verdict SeverelyStunted true <-> (z < -3)%Q.
Proof.
  split; [|apply who_classify_severe].
  intro H. destruct (Qlt_le_dec z (-3)) as [Hlt|Hge]; [exact Hlt|].
  destruct (Qlt_le_dec z (-2)) as [Hlt2|Hge2].
  - rewrite (who_classify_stunted z Hge Hlt2) in H. discriminate H.
  - rewrite (who_classify_normal z Hge2) in H. discriminate H.
Qed.


Lemma who_stunting_yes_iff (z : Q) :
  snd (who_classify z) = "Yes"%string <-> (z < -2)%Q.
Proof.
  destruct (Qlt_le_dec z (-2)) as [Hlt2|Hge2].
  - split; [intros _; exact Hlt2|]. intros _.
    destruct (Qlt_le_dec z (-3)) as [Hlt|Hge].
    + now rewrite (who_classify_severe z Hlt).
    + now rewrite (who_classify_stunted z Hge Hlt2).
  - rewrite (who_classify_normal z Hge2). split; [discriminate|].
    intro H. exfalso. lra.
Qed.

Lemma z_score_value (r : row) :
  exists median sd,
    get_height_for_age_reference (Age r) (Sex r) = Ok (median, sd)
    /\ (1.9 <= sd)%Q
    /\ calculate_height_for_age_z r = Ok ((Body_Length r - median) / sd)%Q.
Proof.
  destruct (reference_total (Age r) (Sex r)) as (m & sd & Hg & Hsd).
  exists m, sd. repeat split; try assumption.
  unfold calculate_height_for_age_z. rewrite Hg. cbn [bind].
  now rewrite fdiv_nonzero by lra.
Qed.


(** X8.  A taller child is never classified worse: with age and sex fixed,
    the z-score does not decrease when the body length grows, so if the
    taller row is flagged stunted (or severely stunted) the shorter one is
    too. *)
Theorem X8_taller_is_never_worse (r : row) (h1 h2 : Q) :
  (h1 <= h2)%Q ->
  exists z1 z2,
    calculate_height_for_age_z (with_body_length r h1) = Ok z1
    /\ calculate_height_for_age_z (with_body_length r h2) = Ok z2
    /\ (z1 <= z2)%Q
    /\ (snd (who_classify z2) = "Yes"%string ->
        snd (who_classify z1) = "Yes"%string)
    /\ (who_classify z2 = verdict SeverelyStunted true ->
        who_classify z1 = verdict SeverelyStunted true).
Proof.
  intro Hh.
  destruct (z_score_value (with_body_length r h1)) as (m & sd & Hg & Hsd & Hz1).
  destruct (z_score_value (with_body_length r h2))
    as (m' & sd' & Hg' & _ & Hz2).
  cbn [with_body_length Age Sex Body_Length] in Hg, Hg', Hz1, Hz2.
  rewrite Hg in Hg'. injection Hg' as <- <-.
  eexists _, _. split; [exact Hz1|]. split; [exact Hz2|].
  assert (Hle : ((h1 - m) / sd <= (h2 - m) / sd)%Q).
  { unfold Qdiv. apply Qmult_le_compat_r; [lra|].
    apply Qlt_le_weak, Qinv_lt_0_compat. lra. }
  split; [exact Hle|]. split.
  - rewrite !who_stunting_yes_iff. intro H. lra.
  - rewrite !who_classify_severe_iff. intro H. lra.
Qed.

Lemma X8_taller_witness :
  exists z1 z2,
    calculate_height_for_age_z (with_body_length example_stunting 70.0)
    = Ok z1
    /\ calculate_height_for_age_z (with_body_length example_stunting 79.0)
       = Ok z2
    /\ (z1 <= z2)%Q
    /\ (snd (who_classify z2) = "Yes"%string ->
        snd (who_classify z1) = "Yes"%string)
    /\ (who_classify z2 = verdict SeverelyStunted true ->
        who_classify z1 = verdict SeverelyStunted true).
Proof.
  apply (X8_taller_is_never_worse example_stunting 70.0 79.0).
  discriminate.
Defined.

Lemma body_length_square (l : Q) : ((l / 100) ^ 2 == l * l / 10000)%Q.
Proof. simpl. field. Qed.

Lemma body_mass_index_value (r : row) :
  (Np.isfinite (body_mass_index r) = true <-> ~ (Body_Length r == 0)%Q)
  /\ (~ (Body_Length r == 0)%Q ->
      exists b,
        body_mass_index r = Finite b
        /\ (b == 10000 * Body_Weight r / (Body_Length r * Body_Length r))%Q
        /\ ((0 < Body_Weight r)%Q -> (0 < b)%Q)).
Proof.
  assert (Hnz : ~ (Body_Length r == 0)%Q ->
                Qeq_bool ((Body_Length r / 100) ^ 2) 0 = false).
  { intro H. destruct (Qeq_bool _ 0) eqn:E; [|reflexivity].
    apply Qeq_bool_iff in E. rewrite body_length_square in E.
    exfalso. apply H.
    assert (E2 : (Body_Length r * Body_Length r == 0)%Q).
    { assert (E3 : (Body_Length r * Body_Length r
                    == Body_Length r * Body_Length r / 10000 * 10000)%Q)
        by field.
      rewrite E3, E. ring. }
    destruct (Qmult_integral _ _ E2); assumption. }
  split.
  - split.
    + intros Hf Hz. rewrite (body_mass_index_zero_length r Hz) in Hf.
      destruct (Qeq_bool (Body_Weight r) 0); [discriminate Hf|].
      destruct (Py.flt 0 (Body_Weight r)); discriminate Hf.
    + intro H. unfold body_mass_index, Np.truediv. now rewrite (Hnz H).
  - intro H. unfold body_mass_index, Np.truediv. rewrite (Hnz H).
    eexists. split; [reflexivity|].
    assert (Hsq : (0 < Body_Length r * Body_Length r)%Q).
    { destruct (Qlt_le_dec 0 (Body_Length r)) as [Hp|Hn].
      - apply Qmult_lt_0_compat; assumption.
      - assert (Hneg : (Body_Length r < 0)%Q).
        { apply Qle_lteq in Hn. destruct Hn as [Hn|Hn]; [exact Hn|].
          exfalso. apply H. exact Hn. }
        setoid_replace (Body_Length r * Body_Length r)%Q
          with ((- Body_Length r) * (- Body_Length r))%Q by ring.
        apply Qmult_lt_0_compat; lra. }
    split.
    + rewrite body_length_square. field. exact H.
    + intro Hw. rewrite body_length_square.
      apply Qlt_shift_div_l.
      * apply Qlt_shift_div_l; lra.
      * lra.
Qed.



(** X10.  A prediction is the model applied to the engineered row: for every
    row the z-score is defined, the preprocessor receives the row together
    with its BMI and z-score, and [predict_stunting] returns the model's
    probability beside the WHO fields, the z-score and the BMI; it raises
    exactly what the preprocessor or the model raises. *)
Theorem X10_prediction_runs_model_on_features
        (T : Type) (transform : features -> res T) (predict : T -> res Q)
        (r : row) :
  exists z,
    calculate_height_for_age_z r = Ok z
    /\ predict_stunting T transform predict r
       = (processed_data <- transform (mkFeatures r (body_mass_index r) z) ;;
          probability <- predict processed_data ;;
          Ok (mkPrediction probability (snd (who_classify z))
                           (fst (who_classify z)) z (body_mass_index r))).
Proof.
  destruct (z_score_value r) as (m & sd & _ & _ & Hz).
  eexists. split; [exact Hz|].
  unfold predict_stunting. rewrite Hz. cbn [bind].
  now destruct (who_classify _).
Qed.

(** The three cases of a returned prediction. *)
Lemma prediction_cases
      (T : Type) (transform : features -> res T) (predict : T -> res Q)
      (r : row) (p : prediction) :
  predict_stunting T transform predict r = Ok p ->
  ((height_for_age_z_score p < -3)%Q
   /\ who_classification p = "Severely stunted (WHO)"%string
   /\ stunting_prediction p = "Yes"%string)
  \/ ((-3 <= height_for_age_z_score p)%Q /\ (height_for_age_z_score p < -2)%Q
      /\ who_classification p = "Stunted (WHO)"%string
      /\ stunting_prediction p = "Yes"%string)
  \/ ((-2 <= height_for_age_z_score p)%Q
      /\ who_classification p = "Not stunted (WHO)"%string
      /\ stunting_prediction p = "No"%string).
Proof.
  intro Hp. apply predict_stunting_fields in Hp. destruct Hp as (_ & Hc & _).
  destruct (Qlt_le_dec (height_for_age_z_score p) (-3)) as [H3|H3].
  - left. rewrite (who_classify_severe _ H3) in Hc.
    injection Hc as -> ->. auto.
  - destruct (Qlt_le_dec (height_for_age_z_score p) (-2)) as [H2|H2].
    + right; left. rewrite (who_classify_stunted _ H3 H2) in Hc.
      injection Hc as -> ->. auto.
    + right; right. rewrite (who_classify_normal _ H2) in Hc.
      injection Hc as -> ->. auto.
Qed.

(** X11.  In every returned prediction the yes/no field and the class agree
    with each other and with the z-score that is returned beside them: the
    answer is 'Yes' exactly when the z-score is below -2, and exactly when the
    class is not 'Not stunted (WHO)'. *)
Theorem X11_prediction_fields_consistent
        (T : Type) (transform : features -> res T) (predict : T -> res Q)
        (r : row) (p : prediction) :
  predict_stunting T transform predict r = Ok p ->
  (stunting_prediction p = "Yes"%string
   <-> (height_for_age_z_score p < -2)%Q)
  /\ (stunting_prediction p = "Yes"%string
      <-> who_classification p <> "Not stunted (WHO)"%string)
  /\ (stunting_prediction p = "Yes"%string
      \/ stunting_prediction p = "No"%string).
Proof.
  intro Hp.
  destruct (prediction_cases T transform predict r p Hp)
    as [(Hz & Hc & Hs)|[(Hz3 & Hz & Hc & Hs)|(Hz & Hc & Hs)]];
    rewrite Hc, Hs; repeat split; auto; try discriminate; try lra;
    intro H; try discriminate H; try (exfalso; lra); try congruence.
Qed.

Lemma X11_prediction_fields_witness :
  exists p,
    predict_stunting features accept_all constant_model example_stunting
    = Ok p
    /\ (stunting_prediction p = "Yes"%string
        <-> (height_for_age_z_score p < -2)%Q).
Proof.
  eexists. split; [reflexivity|].
  apply (X11_prediction_fields_consistent
           features accept_all constant_model example_stunting).
  reflexivity.
Defined.

(** X12.  The style of the result box and the interpretation message follow
    the class: 'severely-stunted' and the error message for 'Severely stunted
    (WHO)', 'stunted' and the warning for 'Stunted (WHO)', 'not-stunted' and
    the success message for 'Not stunted (WHO)'.  (The style is chosen by
    case-sensitive substring tests, the message by the z-score.) *)
Theorem X12_displays_follow_the_class
        (T : Type) (transform : features -> res T) (predict : T -> res Q)
        (r : row) (p : prediction) :
  predict_stunting T transform predict r = Ok p ->
  (who_classification p = "Severely stunted (WHO)"%string
   /\ css_class_of p = "severely-stunted"%string
   /\ interpretation_of p = st_error)
  \/ (who_classification p = "Stunted (WHO)"%string
      /\ css_class_of p = "stunted"%string
      /\ interpretation_of p = st_warning)
  \/ (who_classification p = "Not stunted (WHO)"%string
      /\ css_class_of p = "not-stunted"%string
      /\ interpretation_of p = st_success).
Proof.
  intro Hp.
  destruct (prediction_cases T transform predict r p Hp)
    as [(Hz & Hc & _)|[(Hz3 & Hz & Hc & _)|(Hz & Hc & _)]].
  - left. split; [exact Hc|].
    unfold css_class_of, interpretation_of. rewrite Hc.
    rewrite (proj2 (flt_true_iff _ _) Hz). split; reflexivity.
  - right; left. split; [exact Hc|].
    unfold css_class_of, interpretation_of. rewrite Hc.
    rewrite (proj2 (flt_false_iff _ _) Hz3), (proj2 (flt_true_iff _ _) Hz).
    split; reflexivity.
  - right; right. split; [exact Hc|].
    unfold css_class_of, interpretation_of. rewrite Hc.
    assert (Hz3 : (-3 <= height_for_age_z_score p)%Q) by lra.
    rewrite (proj2 (flt_false_iff _ _) Hz3), (proj2 (flt_false_iff _ _) Hz).
    split; reflexivity.
Qed.

Lemma X12_displays_witness :
  exists p,
    predict_stunting features accept_all constant_model example_normal = Ok p
    /\ ((who_classification p = "Severely stunted (WHO)"%string
         /\ css_class_of p = "severely-stunted"%string
         /\ interpretation_of p = st_error)
        \/ (who_classification p = "Stunted (WHO)"%string
            /\ css_class_of p = "stunted"%string
            /\ interpretation_of p = st_warning)
        \/ (who_classification p = "Not stunted (WHO)"%string
            /\ css_class_of p = "not-stunted"%string
            /\ interpretation_of p = st_success)).
Proof.
  eexists. split; [reflexivity|].
  apply (X12_displays_follow_the_class
           features accept_all constant_model example_normal).
  reflexivity.
Defined.

(** X13.  The bands of the gauge are the classes: they tile the axis from -4
    to 2 without gap, two z-scores strictly inside one band get the same
    class, two z-scores strictly inside different bands get different
    classes, and the threshold line and the delta reference sit at -2, the
    bound below which a row is flagged stunted. *)
Theorem X13_gauge_bands_are_the_classes (z_score : Q) :
  let fig := create_z_score_chart z_score in
  gauge_value fig = z_score
  /\ map step_range (gauge_steps fig)
     = [(fst (axis_range fig), -3); (-3, -2); (-2, snd (axis_range fig))]%Q
  /\ (forall s z z',
         In s (gauge_steps fig) -> inside z s -> inside z' s ->
         who_classify z = who_classify z')
  /\ (forall s s' z z',
         In s (gauge_steps fig) -> In s' (gauge_steps fig) ->
         step_range s <> step_range s' ->
         inside z s -> inside z' s' ->
         who_classify z <> who_classify z')
  /\ threshold_value fig = delta_reference fig
  /\ (forall z, snd (who_classify z) = "Yes"%string
                <-> (z < threshold_value fig)%Q).
Proof.
  cbv zeta. split; [reflexivity|]. split; [reflexivity|].
  assert (Hband : forall s z,
             In s (gauge_steps (create_z_score_chart z_score)) ->
             inside z s ->
             (step_range s = (-4, -3)%Q
              /\ who_classify z = verdict SeverelyStunted true)
             \/ (step_range s = (-3, -2)%Q
                 /\ who_classify z = verdict Stunted true)
             \/ (step_range s = (-2, 2)%Q
                 /\ who_classify z = verdict Normal false)).
  { intros s z Hs [Hlo Hhi]. simpl in Hs.
    destruct Hs as [<-|[<-|[<-|[]]]]; simpl in Hlo, Hhi.
    - left. split; [reflexivity|]. now apply who_classify_severe.
    - right; left. split; [reflexivity|].
      apply who_classify_stunted; lra.
    - right; right. split; [reflexivity|].
      apply who_classify_normal; lra. }
  split; [|split; [|split]].
  - intros s z z' Hs Hz Hz'.
    destruct (Hband s z Hs Hz) as [[E1 C1]|[[E1 C1]|[E1 C1]]];
      destruct (Hband s z' Hs Hz') as [[E2 C2]|[[E2 C2]|[E2 C2]]];
      rewrite C1, C2; try reflexivity;
      rewrite E1 in E2; discriminate E2.
  - intros s s' z z' Hs Hs' Hne Hz Hz'.
    destruct (Hband s z Hs Hz) as [[E1 C1]|[[E1 C1]|[E1 C1]]];
      destruct (Hband s' z' Hs' Hz') as [[E2 C2]|[[E2 C2]|[E2 C2]]];
      rewrite C1, C2; try discriminate;
      exfalso; apply Hne; now rewrite E1, E2.
  - reflexivity.
  - intro z. apply who_stunting_yes_iff.
Qed.

(** X14.  Every row the input form can submit (sex M or F, age 0 to 60,
    weights and lengths within the bounds of the number inputs) has a finite
    BMI between 1.38 and 187.5 and a z-score between -37 and 38: the form
    keeps the division of the BMI away from zero. *)
Theorem X14_form_rows_are_safe (r : row) :
  form_accepts r = true ->
  (exists b, body_mass_index r = Finite b
             /\ (1.38 <= b)%Q /\ (b <= 187.5)%Q)
  /\ (exists z, calculate_height_for_age_z r = Ok z
                /\ (-37 <= z)%Q /\ (z <= 38)%Q).
Proof.
  unfold form_accepts. rewrite !andb_true_iff, !Qle_bool_iff.
  intros (((((((((((_ & _) & _) & _) & _) & _) & _) & _) & Hw1) & Hw2)
           & Hl1) & Hl2).
  split.
  - assert (Hnz : ~ (Body_Length r == 0)%Q) by (intro E; lra).
    destruct (proj2 (body_mass_index_value r) Hnz) as (b & Hb & Hv & _).
    exists b. split; [exact Hb|].
    assert (Hsq1 : (1600 <= Body_Length r * Body_Length r)%Q) by nra.
    assert (Hsq2 : (Body_Length r * Body_Length r <= 14400)%Q) by nra.
    rewrite Hv. split.
    + apply Qle_shift_div_l; lra.
    + apply Qle_shift_div_r; lra.
  - destruct (z_score_value r) as (m & sd & Hg & Hsd & Hz).
    destruct (reference_bounds (Age r) (Sex r))
      as (m' & sd' & Hg' & Hm1 & Hm2 & Hs1 & Hs2).
    rewrite Hg in Hg'. injection Hg' as <- <-.
    eexists. split; [exact Hz|]. split.
    + apply Qle_shift_div_l; [lra|]. nra.
    + apply Qle_shift_div_r; [lra|]. nra.
Qed.

Lemma X14_form_rows_witness :
  (exists b, body_mass_index example_normal = Finite b
             /\ (1.38 <= b)%Q /\ (b <= 187.5)%Q)
  /\ (exists z, calculate_height_for_age_z example_normal = Ok z
                /\ (-37 <= z)%Q /\ (z <= 38)%Q).
Proof.
  apply (X14_form_rows_are_safe example_normal). reflexivity.
Defined.

(* ===================================================================== *)
(** ** The batch section *)
(* ===================================================================== *)

Lemma contains_In_columns (col : string) (columns : list string) :
  existsb (String.eqb col) columns = true <-> In col columns.
Proof.
  rewrite existsb_exists. split.
  - intros (x & Hin & E). apply String.eqb_eq in E. now subst.
  - intro H. exists col. split; [exact H | apply String.eqb_refl].
Qed.

Lemma has_required_columns_iff (columns : list string) :
  has_required_columns columns = true
  <-> forall col, In col required_columns -> In col columns.
Proof.
  unfold has_required_columns. rewrite forallb_forall.
  split; intros H col Hc; apply contains_In_columns; auto.
Qed.

(** X15.  A batch is run only on a table that has all seven required
    columns, in any order and among any other columns.  When one is missing,
    the section shows the preview and one message naming the seven columns,
    runs no prediction, and does this whatever the button, the preprocessor
    and the model are. *)
Theorem X15_required_columns
        (T : Type) (transform : features -> res T) (predict : T -> res Q)
        (columns : list string) (batch_data : list row) (button : bool) :
  (has_required_columns columns = true
   <-> forall col,
         In col ["Sex"; "Age"; "Birth Weight"; "Birth Length"; "Body Weight";
                 "Body Length"; "ASI Eksklusif"]%string ->
         In col columns)
  /\ (has_required_columns columns = false ->
      batch_section T transform predict columns batch_data button
      = ([Preview (firstn 5 batch_data);
          ColumnsError
            "File CSV harus memiliki kolom: Sex, Age, Birth Weight, Birth Length, Body Weight, Body Length, ASI Eksklusif"],
         Ok tt))
  /\ (has_required_columns columns = true -> button = false ->
      batch_section T transform predict columns batch_data button
      = ([Preview (firstn 5 batch_data)], Ok tt)).
Proof.
  split; [exact (has_required_columns_iff columns)|].
  split; intro H; unfold batch_section; rewrite H.
  - reflexivity.
  - intros ->. reflexivity.
Qed.

Lemma X15_required_columns_witness :
  batch_section features accept_all constant_model
                ["Sex"; "Age"; "Body Weight"; "Body Length"]%string
                [example_normal] true
  = ([Preview [example_normal];
      ColumnsError
        "File CSV harus memiliki kolom: Sex, Age, Birth Weight, Birth Length, Body Weight, Body Length, ASI Eksklusif"],
     Ok tt).
Proof.
  apply (proj1 (proj2 (X15_required_columns
                         features accept_all constant_model
                         ["Sex"; "Age"; "Body Weight"; "Body Length"]%string
                         [example_normal] true))).
  reflexivity.
Defined.

(** The class of a returned prediction can be read from its label by the
    substring tests of the summary, and from its z-score. *)
Lemma summary_tests
      (T : Type) (transform : features -> res T) (predict : T -> res Q)
      (r : row) (p : prediction) :
  predict_stunting T transform predict r = Ok p ->
  PyStr.contains "Not stunted" (who_classification p) = z_in_class Normal p
  /\ (PyStr.contains "Stunted" (who_classification p)
      && negb (PyStr.contains "Severely" (who_classification p)))
     = z_in_class Stunted p
  /\ PyStr.contains "Severely stunted" (who_classification p)
     = z_in_class SeverelyStunted p.
Proof.
  intro Hp. unfold z_in_class.
  destruct (prediction_cases T transform predict r p Hp)
    as [(Hz & Hc & _)|[(Hz3 & Hz & Hc & _)|(Hz & Hc & _)]]; rewrite Hc.
  - rewrite (proj2 (flt_true_iff _ (-3)) Hz).
    assert (Hz2 : (height_for_age_z_score p < -2)%Q) by lra.
    rewrite (proj2 (flt_true_iff _ (-2)) Hz2). repeat split.
  - rewrite (proj2 (flt_false_iff _ (-3)) Hz3).
    rewrite (proj2 (flt_true_iff _ (-2)) Hz). repeat split.
  - assert (Hz3 : (-3 <= height_for_age_z_score p)%Q) by lra.
    rewrite (proj2 (flt_false_iff _ (-3)) Hz3).
    rewrite (proj2 (flt_false_iff _ (-2)) Hz). repeat split.
Qed.

Lemma count_if_ext (f g : prediction -> bool) (results : list prediction) :
  Forall (fun p => f p = g p) results -> count_if f results = count_if g results.
Proof.
  intro H. unfold count_if. do 2 f_equal.
  induction H as [|p ps Hp _ IH]; simpl; [reflexivity|].
  now rewrite Hp, IH.
Qed.

Lemma count_if_cons (f : prediction -> bool) (p : prediction)
      (results : list prediction) :
  count_if f (p :: results)
  = (if f p then 1 else 0) + count_if f results.
Proof.
  unfold count_if. simpl. destruct (f p); simpl List.length; lia.
Qed.

Lemma z_classes_partition (results : list prediction) :
  count_if (z_in_class Normal) results
  + count_if (z_in_class Stunted) results
  + count_if (z_in_class SeverelyStunted) results
  = Z.of_nat (List.length results).
Proof.
  induction results as [|p ps IH]; [reflexivity|].
  rewrite !count_if_cons. simpl List.length.
  unfold z_in_class at 1 3 5.
  destruct (Py.flt (height_for_age_z_score p) (-3)) eqn:E3;
    destruct (Py.flt (height_for_age_z_score p) (-2)) eqn:E2;
    cbn [negb andb]; try lia.
  apply flt_true_iff in E3. apply flt_false_iff in E2. exfalso. lra.
Qed.

Lemma batch_results_returned
      (T : Type) (transform : features -> res T) (predict : T -> res Q)
      (rows : list row) (results : list prediction) :
  batch_loop T transform predict rows [] = Ok results ->
  Forall (fun p => exists r, predict_stunting T transform predict r = Ok p)
         results.
Proof.
  intro H. apply batch_loop_ok_iff in H.
  induction H as [|r p rows results Hp _ IH]; constructor; [|exact IH].
  now exists r.
Qed.

Lemma summary_counts
      (T : Type) (transform : features -> res T) (predict : T -> res Q)
      (rows : list row) (results : list prediction) :
  batch_loop T transform predict rows [] = Ok results ->
  normal_count results = count_if (z_in_class Normal) results
  /\ stunted_count results = count_if (z_in_class Stunted) results
  /\ severe_count results = count_if (z_in_class SeverelyStunted) results.
Proof.
  intro H. apply batch_results_returned in H.
  unfold normal_count, stunted_count, severe_count.
  repeat split; apply count_if_ext;
    (eapply Forall_impl; [|exact H]);
    intros p (r & Hp);
    destruct (summary_tests T transform predict r p Hp) as (H1 & H2 & H3);
    assumption.
Qed.

(** X16.  The three counts of the summary split the results of a batch:
    each result is counted exactly once, the count under 'Normal' is the
    number of rows with z >= -2, the count under 'Stunted' the number with
    -3 <= z < -2, and the count under 'Severely Stunted' the number with
    z < -3. *)
Theorem X16_summary_counts_partition
        (T : Type) (transform : features -> res T) (predict : T -> res Q)
        (batch_data : list row) (results : list prediction) :
  batch_loop T transform predict batch_data [] = Ok results ->
  normal_count results + stunted_count results + severe_count results
  = Z.of_nat (List.length batch_data)
  /\ normal_count results = count_if (z_in_class Normal) results
  /\ stunted_count results = count_if (z_in_class Stunted) results
  /\ severe_count results = count_if (z_in_class SeverelyStunted) results.
Proof.
  intro H.
  destruct (summary_counts T transform predict batch_data results H)
    as (H1 & H2 & H3).
  split; [|auto].
  rewrite H1, H2, H3, z_classes_partition.
  apply batch_loop_ok_iff in H. now rewrite (Forall2_length H).
Qed.

Lemma X16_summary_counts_witness :
  exists results,
    batch_loop features accept_all constant_model
               [example_normal; example_stunting;
                with_body_length example_stunting 70.0] [] = Ok results
    /\ normal_count results = 1 /\ stunted_count results = 1
    /\ severe_count results = 1
    /\ normal_count results + stunted_count results + severe_count results
       = 3.
Proof.
  eexists. split; [reflexivity|].
  repeat (split; [reflexivity|]).
  apply (X16_summary_counts_partition
           features accept_all constant_model
           [example_normal; example_stunting;
            with_body_length example_stunting 70.0]).
  reflexivity.
Defined.

Lemma truediv_nonzero (a b : Z) :
  b <> 0 -> Py.truediv a b = Ok (inject_Z a / inject_Z b)%Q.
Proof.
  intro H. unfold Py.truediv.
  destruct (Z.eqb_spec b 0); [contradiction|reflexivity].
Qed.

(** The loop with its progress bar computes what [batch_loop] computes. *)
Lemma batch_rows_ok
      (T : Type) (transform : features -> res T) (predict : T -> res Q)
      (total : Z) (rows : list row) :
  total <> 0 ->
  forall i acc results,
    batch_loop T transform predict rows acc = Ok results ->
    batch_rows T transform predict total i rows acc
    = (progress_marks total i (List.length rows), Ok results).
Proof.
  intro Ht. induction rows as [|r rest IH]; intros i acc results H.
  - simpl in H. injection H as <-. reflexivity.
  - simpl in H. cbn [batch_rows].
    destruct (predict_stunting T transform predict r) as [x|e];
      cbn [bind] in H; [|discriminate H].
    rewrite (truediv_nonzero (i + 1) total Ht).
    cbn [run page_bind show].
    rewrite (IH (i + 1) (acc ++ [x]) results H). reflexivity.
Qed.

Lemma batch_rows_first_failure
      (T : Type) (transform : features -> res T) (predict : T -> res Q)
      (total : Z) (r : row) (rest : list row) (e : exn) (done : list row) :
  total <> 0 ->
  predict_stunting T transform predict r = Raise e ->
  Forall (fun r' =>
            is_ok (predict_stunting T transform predict r') = true) done ->
  forall i acc,
    batch_rows T transform predict total i (done ++ r :: rest) acc
    = (progress_marks total i (List.length done), Raise e).
Proof.
  intros Ht Hr Hdone. induction Hdone as [|d done Hd _ IH]; intros i acc.
  - cbn [app batch_rows]. rewrite Hr. reflexivity.
  - cbn [app batch_rows].
    destruct (predict_stunting T transform predict d) as [x|e'];
      [|discriminate Hd].
    rewrite (truediv_nonzero (i + 1) total Ht).
    cbn [run page_bind show].
    rewrite (IH (i + 1) (acc ++ [x])). reflexivity.
Qed.

(** A batch is scored entirely, or has a first row that raises. *)
Lemma batch_rows_split
      (T : Type) (transform : features -> res T) (predict : T -> res Q)
      (rows : list row) :
  (exists results, batch_loop T transform predict rows [] = Ok results)
  \/ (exists done r rest e,
         rows = done ++ r :: rest
         /\ Forall (fun r' =>
                      is_ok (predict_stunting T transform predict r') = true)
                   done
         /\ predict_stunting T transform predict r = Raise e).
Proof.
  induction rows as [|r rest IH].
  - left. exists []. reflexivity.
  - destruct (predict_stunting T transform predict r) as [x|e] eqn:Ex.
    + destruct IH as [(rs & Hrs)|(done & r' & rest' & e & -> & Hdone & Hr')].
      * left. exists (x :: rs). rewrite batch_loop_cons, Ex, Hrs. reflexivity.
      * right. exists (r :: done), r', rest', e.
        split; [reflexivity|]. split; [|exact Hr'].
        constructor; [now rewrite Ex | exact Hdone].
    + right. exists [], r, rest, e. repeat split; [constructor | exact Ex].
Qed.

Lemma percent_of_nonempty (count : Z) (results : list prediction) :
  results <> [] ->
  percent_of count results
  = Ok (inject_Z count / inject_Z (Z.of_nat (List.length results)) * 100)%Q.
Proof.
  intro H. unfold percent_of. rewrite truediv_nonzero; [reflexivity|].
  destruct results; [contradiction | simpl; lia].
Qed.

Lemma summary_nonempty (results : list prediction) :
  results <> [] ->
  summary results
  = (metrics results
       (inject_Z (normal_count results)
        / inject_Z (Z.of_nat (List.length results)) * 100)%Q
       (inject_Z (stunted_count results)
        / inject_Z (Z.of_nat (List.length results)) * 100)%Q
       (inject_Z (severe_count results)
        / inject_Z (Z.of_nat (List.length results)) * 100)%Q,
     Ok tt).
Proof.
  intro H. unfold summary. rewrite !(percent_of_nonempty _ results H).
  reflexivity.
Qed.

Lemma progress_marks_values (total : Z) (k : nat) :
  forall i, 0 <= i -> i + Z.of_nat k <= total ->
            Forall (fun q => (0 < q)%Q /\ (q <= 1)%Q)
                   (progress_values (progress_marks total i k)).
Proof.
  induction k as [|k IH]; intros i Hi Hk; simpl; [constructor|].
  constructor.
  - assert (Ht : (0 < inject_Z total)%Q)
      by (rewrite <- (Zlt_Qlt 0); lia).
    split.
    + apply Qlt_shift_div_l; [exact Ht|].
      rewrite Qmult_0_l, <- (Zlt_Qlt 0). lia.
    + apply Qle_shift_div_r; [exact Ht|].
      rewrite Qmult_1_l, <- Zle_Qle. lia.
  - apply IH; lia.
Qed.

Lemma length_nonzero {A : Type} (l : list A) :
  l <> [] -> Z.of_nat (List.length l) <> 0.
Proof. destruct l; [contradiction | simpl; lia]. Qed.

Lemma combine_Forall2 {A B : Type} (P : A -> B -> Prop)
      (xs : list A) (ys : list B) :
  Forall2 P xs ys -> Forall (fun xy => P (fst xy) (snd xy)) (combine xs ys).
Proof.
  induction 1 as [|x y xs ys Hxy _ IH]; simpl; constructor; assumption.
Qed.

Lemma page_of_scored_batch
        (T : Type) (transform : features -> res T) (predict : T -> res Q)
        (columns : list string) (batch_data : list row)
        (results : list prediction) :
  has_required_columns columns = true ->
  batch_data <> [] ->
  batch_loop T transform predict batch_data [] = Ok results ->
  exists p1 p2 p3,
    batch_section T transform predict columns batch_data true
    = (Preview (firstn 5 batch_data)
       :: Progress 0
       :: progress_marks (Z.of_nat (List.length batch_data)) 0
                         (List.length batch_data)
       ++ [Success (List.length batch_data);
           ResultTable (combine batch_data results);
           DownloadButton]
       ++ metrics results p1 p2 p3,
       Ok tt)
    /\ (p1 + p2 + p3 == 100)%Q
    /\ List.length (combine batch_data results) = List.length batch_data
    /\ Forall (fun rp =>
                 predict_stunting T transform predict (fst rp)
                 = Ok (snd rp))
              (combine batch_data results).
Proof.
  intros Hcols Hne Hloop.
  pose proof (proj1 (batch_loop_ok_iff T transform predict batch_data results)
                    Hloop) as HF.
  pose proof (Forall2_length HF) as Hlen.
  assert (Hres : results <> []).
  { destruct results; [|discriminate].
    destruct batch_data; [contradiction | discriminate Hlen]. }
  eexists _, _, _. split; [|split; [|split]].
  - unfold batch_section. rewrite Hcols.
    cbn [show page_bind].
    rewrite (batch_rows_ok T transform predict _ batch_data
                           (length_nonzero batch_data Hne) 0 [] results Hloop).
    cbn [page_bind show].
    rewrite (summary_nonempty results Hres).
    cbn [page_bind show run try_except app].
    reflexivity.
  - destruct (summary_counts T transform predict batch_data results Hloop)
      as (H1 & H2 & H3).
    pose proof (z_classes_partition results) as Hsum.
    rewrite <- H1, <- H2, <- H3 in Hsum.
    assert (Hn : ~ (inject_Z (Z.of_nat (List.length results)) == 0)%Q).
    { change 0%Q with (inject_Z 0). rewrite inject_Z_injective.
      destruct results; [contradiction | simpl; lia]. }
    assert (Hq : (inject_Z (normal_count results)
                  + inject_Z (stunted_count results)
                  + inject_Z (severe_count results)
                  == inject_Z (Z.of_nat (List.length results)))%Q)
      by (rewrite <- !inject_Z_plus, Hsum; reflexivity).
    setoid_replace
      (inject_Z (normal_count results)
       / inject_Z (Z.of_nat (List.length results)) * 100
       + inject_Z (stunted_count results)
         / inject_Z (Z.of_nat (List.length results)) * 100
       + inject_Z (severe_count results)
         / inject_Z (Z.of_nat (List.length results)) * 100)%Q
      with ((inject_Z (normal_count results)
             + inject_Z (stunted_count results)
             + inject_Z (severe_count results))
            / inject_Z (Z.of_nat (List.length results)) * 100)%Q
      by (field; exact Hn).
    rewrite Hq. field. exact Hn.
  - rewrite length_combine, <- Hlen. apply Nat.min_id.
  - exact (combine_Forall2
             (fun r p => predict_stunting T transform predict r = Ok p)
             batch_data results HF).
Qed.



(** X18.  A table with the required columns but no row is reported as
    processed and then as an error: the page shows the success message for 0
    rows, an empty result table and the download button, and then the first
    percentage of the summary divides by zero; the handler of the section
    shows that exception, and no metric appears. *)
Theorem X18_empty_batch_ends_in_zero_division
        (T : Type) (transform : features -> res T) (predict : T -> res Q)
        (columns : list string) :
  has_required_columns columns = true ->
  batch_section T transform predict columns [] true
  = ([Preview []; Progress 0; Success 0; ResultTable []; DownloadButton;
      ExceptionError ZeroDivisionError],
     Ok tt).
Proof.
  intro Hcols. unfold batch_section. rewrite Hcols. reflexivity.
Qed.

Lemma X18_empty_batch_witness :
  batch_section features accept_all constant_model required_columns [] true
  = ([Preview []; Progress 0; Success 0; ResultTable []; DownloadButton;
      ExceptionError ZeroDivisionError],
     Ok tt).
Proof.
  apply (X18_empty_batch_ends_in_zero_division
           features accept_all constant_model required_columns).
  reflexivity.
Defined.

Lemma page_of_failed_batch
        (T : Type) (transform : features -> res T) (predict : T -> res Q)
        (columns : list string) (done : list row) (r : row)
        (rest : list row) (e : exn) :
  has_required_columns columns = true ->
  Forall (fun r' =>
            is_ok (predict_stunting T transform predict r') = true) done ->
  predict_stunting T transform predict r = Raise e ->
  batch_section T transform predict columns (done ++ r :: rest) true
  = (Preview (firstn 5 (done ++ r :: rest))
     :: Progress 0
     :: progress_marks (Z.of_nat (List.length (done ++ r :: rest))) 0
                       (List.length done)
     ++ [ExceptionError e],
     Ok tt).
Proof.
  intros Hcols Hdone Hr. unfold batch_section. rewrite Hcols.
  cbn [show page_bind].
  rewrite (batch_rows_first_failure T transform predict _ r rest e done);
    [|apply length_nonzero; now destruct done|exact Hr|exact Hdone].
  cbn [page_bind show run try_except app]. reflexivity.
Qed.

(** X19.  When a row of a batch raises, the page shows the preview, the
    progress updates of the rows before it and the exception, and nothing
    else: no success message, no result table, no download button and no
    metric, also for the rows that were scored before the failure. *)
Theorem X19_page_of_a_failed_batch
        (T : Type) (transform : features -> res T) (predict : T -> res Q)
        (columns : list string) (done : list row) (r : row)
        (rest : list row) (e : exn) :
  has_required_columns columns = true ->
  Forall (fun r' =>
            is_ok (predict_stunting T transform predict r') = true) done ->
  predict_stunting T transform predict r = Raise e ->
  batch_section T transform predict columns (done ++ r :: rest) true
  = (Preview (firstn 5 (done ++ r :: rest))
     :: Progress 0
     :: progress_marks (Z.of_nat (List.length (done ++ r :: rest))) 0
                       (List.length done)
     ++ [ExceptionError e],
     Ok tt).
Proof.
  exact (page_of_failed_batch T transform predict columns done r rest e).
Qed.

Lemma X19_page_of_a_failed_batch_witness :
  batch_section features reject_non_finite constant_model required_columns
                ([example_normal]
                 ++ with_body_length example_normal 0 :: [example_stunting])
                true
  = (Preview (firstn 5 ([example_normal]
                        ++ with_body_length example_normal 0
                        :: [example_stunting]))
     :: Progress 0
     :: progress_marks 3 0 1
     ++ [ExceptionError (Exception "Input contains infinity or NaN")],
     Ok tt).
Proof.
  apply (X19_page_of_a_failed_batch
           features reject_non_finite constant_model required_columns
           [example_normal] (with_body_length example_normal 0)
           [example_stunting]).
  - reflexivity.
  - constructor; [reflexivity | constructor].
  - reflexivity.
Defined.

Lemma progress_values_app (xs ys : list element) :
  progress_values (xs ++ ys) = progress_values xs ++ progress_values ys.
Proof. unfold progress_values. apply flat_map_app. Qed.

Lemma progress_in_unit_weaken (qs : list Q) :
  Forall (fun q => (0 < q)%Q /\ (q <= 1)%Q) qs ->
  Forall (fun q => (0 <= q)%Q /\ (q <= 1)%Q) qs.
Proof.
  apply Forall_impl. intros q [H0 H1]. split; [lra | exact H1].
Qed.

(** X20.  Every value given to the progress bar lies between 0 and 1,
    whatever the table, the button, the preprocessor and the model are; and
    when all rows of a non-empty batch are scored the last value is n/n. *)
Theorem X20_progress_stays_within_the_bar
        (T : Type) (transform : features -> res T) (predict : T -> res Q)
        (columns : list string) (batch_data : list row) (button : bool) :
  Forall (fun q => (0 <= q)%Q /\ (q <= 1)%Q)
         (progress_values
            (fst (batch_section T transform predict columns batch_data
                                button)))
  /\ (has_required_columns columns = true -> button = true ->
      batch_data <> [] ->
      is_ok (batch_loop T transform predict batch_data []) = true ->
      exists before after,
        fst (batch_section T transform predict columns batch_data button)
        = before
          ++ [Progress (inject_Z (Z.of_nat (List.length batch_data))
                        / inject_Z (Z.of_nat (List.length batch_data)))%Q]
          ++ after
        /\ progress_values after = []).
Proof.
  split.
  - destruct (has_required_columns columns) eqn:Hcols;
      [|unfold batch_section; rewrite Hcols; simpl; constructor].
    destruct button;
      [|unfold batch_section; rewrite Hcols; simpl; constructor].
    destruct batch_data as [|r0 rows0] eqn:Hrows.
    { unfold batch_section. rewrite Hcols. simpl.
      constructor; [split; discriminate | constructor]. }
    rewrite <- Hrows.
    assert (Hne : batch_data <> []) by (rewrite Hrows; discriminate).
    clear Hrows.
    destruct (batch_rows_split T transform predict batch_data)
      as [(results & Hloop)
         |(done & r & rest & e & Hsplit & Hdone & Hr)].
    + destruct (page_of_scored_batch T transform predict columns batch_data
                                     results Hcols Hne Hloop)
        as (p1 & p2 & p3 & Hpage & _).
      rewrite Hpage. cbn [fst].
      change (Preview ?a :: Progress ?b :: ?l)
        with ([Preview a; Progress b] ++ l).
      rewrite !progress_values_app. cbn [progress_values flat_map app].
      constructor; [split; discriminate|].
      rewrite app_nil_r.
      apply progress_in_unit_weaken, progress_marks_values; lia.
    + rewrite Hsplit.
      rewrite (page_of_failed_batch T transform predict columns done r rest e
                                    Hcols Hdone Hr).
      cbn [fst].
      change (Preview ?a :: Progress ?b :: ?l)
        with ([Preview a; Progress b] ++ l).
      rewrite !progress_values_app. cbn [progress_values flat_map app].
      constructor; [split; discriminate|].
      rewrite app_nil_r.
      apply progress_in_unit_weaken, progress_marks_values; [lia|].
      rewrite length_app. simpl. lia.
  - intros Hcols -> Hne Hok.
    destruct (batch_loop T transform predict batch_data []) as [results|e]
      eqn:Hloop; [|discriminate Hok].
    destruct (page_of_scored_batch T transform predict columns batch_data
                                   results Hcols Hne Hloop)
      as (p1 & p2 & p3 & Hpage & _).
    rewrite Hpage. cbn [fst].
    assert (Hlast : forall total k i,
               i + Z.of_nat (S k) = total ->
               exists marks,
                 progress_marks total i (S k)
                 = marks ++ [Progress (inject_Z total / inject_Z total)%Q]).
    { intros total k. induction k as [|k IH]; intros i Hi.
      - exists []. assert (E : i + 1 = total) by lia.
        cbn [progress_marks app]. now rewrite E.
      - destruct (IH (i + 1) ltac:(lia)) as (marks & Hm).
        exists (Progress (inject_Z (i + 1) / inject_Z total)%Q :: marks).
        change (progress_marks total i (S (S k)))
          with (Progress (inject_Z (i + 1) / inject_Z total)%Q
                :: progress_marks total (i + 1) (S k)).
        now rewrite Hm. }
    destruct batch_data as [|r0 rows0]; [contradiction|].
    destruct (Hlast (Z.of_nat (List.length (r0 :: rows0)))
                    (List.length rows0) 0 ltac:(simpl; lia))
      as (marks & Hm).
    change (List.length (r0 :: rows0)) with (S (List.length rows0)) at 2.
    rewrite Hm.
    eexists (Preview _ :: Progress 0 :: marks), _.
    split.
    + cbn [app]. rewrite <- !app_assoc. cbn [app]. reflexivity.
    + reflexivity.
Qed.

Lemma X20_progress_witness :
  exists before after,
    fst (batch_section features accept_all constant_model required_columns
                       [example_normal; example_stunting] true)
    = before ++ [Progress (inject_Z 2 / inject_Z 2)%Q] ++ after
    /\ progress_values after = [].
Proof.
  apply (proj2 (X20_progress_stays_within_the_bar
                  features accept_all constant_model required_columns
                  [example_normal; example_stunting] true)).
  - reflexivity.
  - reflexivity.
  - discriminate.
  - reflexivity.
Defined.

(** X21.  The closest anchor of an age is a nearest key of the table, and of
    two equally near keys it is the lower one (ages 15, 21, 30, 42 and 54 are
    resolved to 12, 18, 24, 36 and 48). *)
Theorem X21_closest_anchor_prefers_lower (age_months : Z) :
  exists c,
    closest_anchor age_months = Ok c
    /\ In c ages
    /\ forall y, In y ages ->
                 Z.abs (c - age_months) < Z.abs (y - age_months)
                 \/ (Z.abs (c - age_months) = Z.abs (y - age_months)
                     /\ c <= y).
Proof.
  assert (Hcheck : forall a, closest_checked a = true ->
            exists c,
              closest_anchor a = Ok c
              /\ In c ages
              /\ forall y, In y ages ->
                           Z.abs (c - a) < Z.abs (y - a)
                           \/ (Z.abs (c - a) = Z.abs (y - a) /\ c <= y)).
  { intros a H. unfold closest_checked in H.
    destruct (closest_anchor_spec a) as (c & Hc & Hin & _).
    rewrite Hc in H. exists c. split; [exact Hc|]. split; [exact Hin|].
    rewrite forallb_forall in H. intros y Hy. specialize (H y Hy).
    unfold closer_or_lower in H.
    apply orb_true_iff in H. destruct H as [H|H].
    - left. now apply Z.ltb_lt.
    - right. apply andb_true_iff in H. destruct H as [H1 H2].
      split; [now apply Z.eqb_eq | now apply Z.leb_le]. }
  assert (C : age_months < 0 \/ 0 <= age_months <= 60 \/ 60 < age_months)
    by lia.
  destruct C as [C|[C|C]].
  - exists 0. split; [exact (closest_anchor_below _ C)|].
    split; [vm_compute; tauto|].
    intros y Hy. vm_compute in Hy.
    repeat (destruct Hy as [<-|Hy]; [lia|]). destruct Hy.
  - apply Hcheck.
    assert (Hall : forallb closest_checked months = true)
      by (vm_compute; reflexivity).
    rewrite forallb_forall in Hall. apply Hall, months_In, C.
  - exists 60. split; [exact (closest_anchor_above _ C)|].
    split; [vm_compute; tauto|].
    intros y Hy. vm_compute in Hy.
    repeat (destruct Hy as [<-|Hy]; [lia|]). destruct Hy.
Qed.

(** X22.  In IEEE binary64 arithmetic, as Python computes, the lookup of
    every age from 0 to 60 returns an SD of at least 1.9, and between two
    anchors the rounded median and SD lie between the two anchors' values:
    rounding does not take an interpolated value outside its bracket. *)
Theorem X22_binary64_lookup_in_bracket (age_months : Z) (sex : string) :
  0 <= age_months <= 60 ->
  exists median sd,
    Binary64.get_height_for_age_reference age_months sex = Ok (median, sd)
    /\ PrimFloat.leb 1.9 sd = true
    /\ forall lowAge highAge m1 sd1 m2 sd2,
        select_branch age_months = Ok (Interpolate lowAge highAge) ->
        Binary64.anchor_value lowAge sex = Ok (m1, sd1) ->
        Binary64.anchor_value highAge sex = Ok (m2, sd2) ->
        Binary64.within median m1 m2 = true
        /\ Binary64.within sd sd1 sd2 = true.
Proof.
  intro Ha. pose proof (binary64_lookup_agrees age_months sex Ha) as H.
  unfold Binary64.lookup_agrees in H.
  destruct (Binary64.get_height_for_age_reference age_months sex)
    as [[median sd]|e]; [|discriminate H].
  apply andb_true_iff in H. destruct H as [Hsd Hb].
  exists median, sd. split; [reflexivity|]. split; [exact Hsd|].
  intros lo hi m1 sd1 m2 sd2 Hs Hlo Hhi.
  rewrite Hs, Hlo, Hhi in Hb. now apply andb_true_iff in Hb.
Qed.

Lemma X22_binary64_lookup_witness :
  exists median sd,
    Binary64.get_height_for_age_reference 13 "M" = Ok (median, sd)
    /\ PrimFloat.leb 1.9 sd = true
    /\ forall lowAge highAge m1 sd1 m2 sd2,
        select_branch 13 = Ok (Interpolate lowAge highAge) ->
        Binary64.anchor_value lowAge "M" = Ok (m1, sd1) ->
        Binary64.anchor_value highAge "M" = Ok (m2, sd2) ->
        Binary64.within median m1 m2 = true
        /\ Binary64.within sd sd1 sd2 = true.
Proof.
  apply (X22_binary64_lookup_in_bracket 13 "M"). lia.
Defined.
